(** * CareerCompass AI agent: the [/api/analyze-career] handler

    A shallow embedding of [ai-agent/main.py].  The handler fetches a user's
    financial profile from an upstream service, renders a prompt, sends it to
    a generative model, strips markdown fences from the answer, parses it as
    JSON and wraps the result in an envelope.

    Python values are modelled by the inductive type [json]; Python
    exceptions by the type [exn]; the handler runs in a small monad that
    records the outbound calls it makes and either returns a value or raises
    an exception.  The libraries the handler calls (httpx, json,
    google.generativeai, the interpreter's [str]) are not part of the
    repository: they are fields of the record [Runtime], over which every
    theorem is stated.

    A Python [str] is modelled by the Rocq string of its UTF-8 bytes.
    Searching and cutting by an ASCII marker are the same on bytes and on
    characters; iterating a [str] goes character by character ([chars]). *)

From Stdlib Require Import String Ascii List ZArith Bool Lia DecimalString.
Import ListNotations.
Open Scope list_scope.
Open Scope string_scope.

Set Warnings "-register-all".

(* ================================================================== *)
(** ** Python strings: [in], [find], [split] *)
(* ================================================================== *)

Module PyStr.

Fixpoint take (n : nat) (s : string) : string :=
  match n, s with
  | S n', String c s' => String c (take n' s')
  | _, _ => EmptyString
  end.

Fixpoint drop (n : nat) (s : string) : string :=
  match n, s with
  | S n', String _ s' => drop n' s'
  | _, _ => s
  end.

(** [s.find(sub)]: offset of the leftmost occurrence, [None] for -1. *)
Fixpoint find (sub s : string) : option nat :=
  if prefix sub s then Some 0
  else match s with
       | EmptyString => None
       | String _ s' => option_map S (find sub s')
       end.

(** [sub in s] *)
Definition contains (sub s : string) : bool :=
  match find sub s with Some _ => true | None => false end.

(** [s.split(sep)] for a non-empty [sep]: cut at the leftmost occurrence
    and go on after it.  Every cut removes at least one character, so
    [length s] rounds are enough. *)
Fixpoint split_fuel (fuel : nat) (sep s : string) : list string :=
  match fuel with
  | 0 => [s]
  | S fuel' =>
      match find sep s with
      | None => [s]
      | Some i => take i s :: split_fuel fuel' sep (drop (i + String.length sep) s)
      end
  end.

Definition split (sep s : string) : list string :=
  split_fuel (String.length s) sep s.

(** [sep.join(parts)] *)
Definition join (sep : string) (parts : list string) : string :=
  String.concat sep parts.

(** [s.endswith(c)] and [s.startswith(c)] for a character [c]. *)
Definition last_is (c : ascii) (s : string) : bool :=
  match get (String.length s - 1) s with
  | Some d => Ascii.eqb c d
  | None => false
  end.

Definition first_is (c : ascii) (s : string) : bool :=
  match s with
  | String d _ => Ascii.eqb c d
  | EmptyString => false
  end.

(** The text before the first [sub], or all of it: [s.split(sub)[0]]. *)
Fixpoint upto (sub s : string) : string :=
  if prefix sub s then EmptyString
  else match s with
       | EmptyString => EmptyString
       | String c s' => String c (upto sub s')
       end.

End PyStr.

(* ================================================================== *)
(** ** Python values and exceptions *)
(* ================================================================== *)

(** What [json.loads] produces: [None], [bool], [int], [float], [str],
    [list] and [dict] (keys in insertion order).  A float is carried by its
    [repr]; the model never computes with it. *)
Inductive json : Type :=
| JNull
| JBool (b : bool)
| JInt (n : Z)
| JFloat (repr : string)
| JStr (s : string)
| JList (items : list json)
| JDict (fields : list (string * json)).

(** The ways the interpreter refuses an operand the handler gives it. *)
Inductive type_error : Type :=
| BadSubscript (v : json) (key : string)   (* v[key] on a non-dict *)
| JoinNotIterable (v : json)               (* sep.join(v), v not iterable *)
| JoinItemNotStr (i : nat) (v : json).     (* sep.join(v), item i not a str *)

(** Subclasses of [Exception] that can reach the handler's [except]
    clauses.  [LibraryError] stands for whatever httpx or the model SDK
    raises (transport errors, API errors, ...), by class name and message. *)
Inductive exn : Type :=
| HTTPException (status : Z) (detail : string)
| JSONDecodeError (msg : string)
| KeyError (key : string)
| TypeError (cause : type_error)
| IndexError
| ValueError (msg : string)
| LibraryError (cls msg : string).

Definition Result (A : Type) : Type := (exn + A)%type.

Definition rbind {A B} (r : Result A) (k : A -> Result B) : Result B :=
  match r with
  | inl e => inl e
  | inr a => k a
  end.

Notation "x <-? r ;; k" := (rbind r (fun x => k))
  (at level 61, r at next level, right associativity).

(** Outbound calls, in the order they are made. *)
Inductive event : Type :=
| Get (url : string)
| GenerateContent (model prompt : string).

(** A handler run: the calls made, and a value or the exception raised. *)
Definition M (A : Type) : Type := (list event * Result A)%type.

Definition ret {A} (a : A) : M A := ([], inr a).
Definition raise {A} (e : exn) : M A := ([], inl e).
Definition lift {A} (r : Result A) : M A := ([], r).
Definition call {A} (ev : event) (r : Result A) : M A := ([ev], r).

Definition bind {A B} (m : M A) (k : A -> M B) : M B :=
  match m with
  | (log, inl e) => (log, inl e)
  | (log, inr a) => let (log', r) := k a in ((log ++ log')%list, r)
  end.

(** [try: m  except Exception as e: h e] *)
Definition try_except {A} (m : M A) (h : exn -> M A) : M A :=
  match m with
  | (log, inl e) => let (log', r) := h e in ((log ++ log')%list, r)
  | (log, inr a) => (log, inr a)
  end.

Notation "x <- m ;; k" := (bind m (fun x => k))
  (at level 61, m at next level, right associativity).

Definition calls {A} (m : M A) : list event := fst m.
Definition outcome {A} (m : M A) : Result A := snd m.

Definition is_generate (ev : event) : bool :=
  match ev with GenerateContent _ _ => true | Get _ => false end.

(** The generative model was called during the run. *)
Definition model_invoked {A} (m : M A) : bool := existsb is_generate (calls m).

(* ================================================================== *)
(** ** Operations of the interpreter the handler uses *)
(* ================================================================== *)

Fixpoint assoc (key : string) (fields : list (string * json)) : option json :=
  match fields with
  | [] => None
  | (k, v) :: rest => if String.eqb key k then Some v else assoc key rest
  end.

(** [v[key]] with a string key. *)
Definition getitem (v : json) (key : string) : Result json :=
  match v with
  | JDict fields =>
      match assoc key fields with
      | Some x => inr x
      | None => inl (KeyError key)
      end
  | _ => inl (TypeError (BadSubscript v key))
  end.

(** [l[i]] *)
Definition index {A} (l : list A) (i : nat) : Result A :=
  match nth_error l i with
  | Some x => inr x
  | None => inl IndexError
  end.

Fixpoint strs_from (i : nat) (items : list json) : Result (list string) :=
  match items with
  | [] => inr []
  | JStr s :: rest => ss <-? strs_from (S i) rest ;; inr (s :: ss)
  | x :: _ => inl (TypeError (JoinItemNotStr i x))
  end.

(** A byte [10xxxxxx] of UTF-8 continues the character begun before it. *)
Definition is_continuation (c : ascii) : bool :=
  let n := nat_of_ascii c in
  (Nat.leb 128 n && Nat.ltb n 192)%bool.

Definition continues (s : string) : bool :=
  match s with
  | String c _ => is_continuation c
  | EmptyString => false
  end.

(** Iterating a [str]: one piece per character, that is a byte together
    with the continuation bytes that follow it. *)
Fixpoint chars (s : string) : list string :=
  match s with
  | EmptyString => []
  | String c s' =>
      if continues s' then
        match chars s' with
        | x :: rest => String c x :: rest
        | [] => [String c EmptyString]
        end
      else String c EmptyString :: chars s'
  end.

(** [sep.join(v)]: a list must hold strings only; a string is iterated by
    character and a dict by key; nothing else is iterable. *)
Definition str_join (sep : string) (v : json) : Result string :=
  match v with
  | JList items => ss <-? strs_from 0 items ;; inr (PyStr.join sep ss)
  | JStr s => inr (PyStr.join sep (chars s))
  | JDict fields => inr (PyStr.join sep (map fst fields))
  | _ => inl (TypeError (JoinNotIterable v))
  end.

(* ================================================================== *)
(** ** The libraries and the two remote services *)
(* ================================================================== *)

(** [httpx.Response] *)
Record Response : Type := {
  status_code : Z;
  content : string
}.

(** The model SDK's response; reading [.text] can raise. *)
Record GenerateContentResponse : Type := {
  text : Result string
}.

Record Runtime : Type := {
  (** [await client.get(url)] *)
  client_get : string -> Result Response;
  (** [json.loads(s)], also behind [response.json()] *)
  json_loads : string -> Result json;
  (** [json.dumps(v, indent=2)] *)
  json_dumps : json -> string;
  (** a replacement field [{v}] of an f-string, that is [format(v, '')] *)
  py_format : json -> string;
  (** [genai.GenerativeModel(name).generate_content(prompt)] *)
  generate_content : string -> string -> Result GenerateContentResponse;
  (** [str(e)] *)
  exc_str : exn -> string
}.

(* ================================================================== *)
(** ** The request and response models *)
(* ================================================================== *)

Record AnalysisRequest : Type := {
  userId : string;
  mockDataApiUrl : string
}.

Definition default_mockDataApiUrl : string := "http://mock-data-api-service:8080".

Definition is_str (v : json) : bool :=
  match v with JStr _ => true | _ => false end.

Definition is_list (v : json) : bool :=
  match v with JList _ => true | _ => false end.

Definition has_field (check : json -> bool) (key : string) (v : json) : bool :=
  match getitem v key with
  | inr x => check x
  | inl _ => false
  end.

(** [class CareerRecommendation(BaseModel)]: the five annotated fields. *)
Definition CareerRecommendation (v : json) : bool :=
  has_field is_str "primaryGoal" v
  && has_field is_list "recommendedSkills" v
  && has_field is_list "suggestedCourses" v
  && has_field is_str "financialAdvice" v
  && has_field is_list "nextSteps" v.

(* ================================================================== *)
(** ** [analyze_career_path] *)
(* ================================================================== *)

Definition nl : string := String (ascii_of_nat 10) EmptyString.
Definition dq : string := String (ascii_of_nat 34) EmptyString.

(** A string literal of the prompt's example, between double quotes. *)
Definition q (s : string) : string := dq ++ s ++ dq.

Definition lines (ls : list string) : string := String.concat nl ls.

(** The fixed text that follows the goals line of the prompt. *)
Definition prompt_format_section : string :=
  lines
    [ EmptyString;
      EmptyString;
      "        Please provide career guidance in this JSON format:";
      "        {";
      "            " ++ q "primaryGoal" ++ ": "
        ++ q "One main career objective based on their profile" ++ ",";
      "            " ++ q "recommendedSkills" ++ ": ["
        ++ q "skill1" ++ ", " ++ q "skill2" ++ ", " ++ q "skill3" ++ "],";
      "            " ++ q "suggestedCourses" ++ ": [";
      "                {" ++ q "name" ++ ": " ++ q "Course Name" ++ ", "
        ++ q "provider" ++ ": " ++ q "Platform" ++ ", "
        ++ q "estimatedCost" ++ ": " ++ q "$XX" ++ "},";
      "                {" ++ q "name" ++ ": " ++ q "Course Name 2" ++ ", "
        ++ q "provider" ++ ": " ++ q "Platform" ++ ", "
        ++ q "estimatedCost" ++ ": " ++ q "$XX" ++ "}";
      "            ],";
      "            " ++ q "financialAdvice" ++ ": "
        ++ q "Specific financial recommendation based on their spending" ++ ",";
      "            " ++ q "nextSteps" ++ ": [" ++ q "actionable step 1" ++ ", "
        ++ q "actionable step 2" ++ ", " ++ q "actionable step 3" ++ "]";
      "        }";
      EmptyString;
      "        Focus on practical, actionable advice based on their current financial situation and career stage.";
      "        " ].

(** The f-string of the handler, once its seven replacement fields have
    been evaluated and formatted. *)
Definition render_prompt
    (name profile income stage spending transactions goals : string) : string :=
  nl ++ "        Analyze this financial profile and provide career guidance:"
  ++ nl
  ++ nl ++ "        User Profile: " ++ name ++ " - " ++ profile
  ++ nl ++ "        Monthly Income: $" ++ income
  ++ nl ++ "        Career Stage: " ++ stage
  ++ nl
  ++ nl ++ "        Spending Breakdown:"
  ++ nl ++ "        " ++ spending
  ++ nl
  ++ nl ++ "        Recent Transactions:"
  ++ nl ++ "        " ++ transactions
  ++ nl
  ++ nl ++ "        Current Goals: " ++ goals
  ++ prompt_format_section.

Definition course (name provider cost : string) : json :=
  JDict [ ("name", JStr name); ("provider", JStr provider);
          ("estimatedCost", JStr cost) ].

(** The dict literal of the [except json.JSONDecodeError] branch. *)
Definition fallback_recommendation : json :=
  JDict
    [ ("primaryGoal", JStr "Build technical skills for career advancement");
      ("recommendedSkills",
        JList [ JStr "Data Analysis"; JStr "Python Programming";
                JStr "Communication" ]);
      ("suggestedCourses",
        JList [ course "Python for Data Science" "Coursera" "$49";
                course "Excel to Python" "Udemy" "$85" ]);
      ("financialAdvice",
        JStr "Consider allocating 15% of income to skill development");
      ("nextSteps",
        JList [ JStr "Start with one online course this month";
                JStr "Set up a dedicated learning budget";
                JStr "Track progress weekly" ]) ].

Definition fence : string := "```".
Definition json_fence : string := "```json".

(** Remove any markdown code block formatting (lines 101-104). *)
Definition strip_code_fence (ai_text : string) : Result string :=
  if PyStr.contains json_fence ai_text then
    part <-? index (PyStr.split json_fence ai_text) 1 ;;
    index (PyStr.split fence part) 0
  else if PyStr.contains fence ai_text then
    part <-? index (PyStr.split fence ai_text) 1 ;;
    index (PyStr.split fence part) 0
  else inr ai_text.

Definition backtick : ascii := "`"%char.

(** What [strip_code_fence] computes, without the list of pieces. *)
Definition stripped (ai_text : string) : string :=
  match PyStr.find json_fence ai_text with
  | Some i =>
      let rest := PyStr.drop (i + String.length json_fence) ai_text in
      PyStr.upto fence (PyStr.upto json_fence rest)
  | None =>
      match PyStr.find fence ai_text with
      | Some i =>
          let rest := PyStr.drop (i + String.length fence) ai_text in
          PyStr.upto fence (PyStr.upto fence rest)
      | None => ai_text
      end
  end.

Section Handler.

Variable rt : Runtime.

Definition financial_data_url (request : AnalysisRequest) : string :=
  mockDataApiUrl request ++ "/api/users/" ++ userId request
  ++ "/financial-data".

(** Lines 51-59: the GET, the status test and [response.json()]. *)
Definition fetch_user_data (request : AnalysisRequest) : M json :=
  let url := financial_data_url request in
  response <- call (Get url) (client_get rt url) ;;
  if negb (Z.eqb (status_code response) 200) then
    raise (HTTPException 404 "User data not found")
  else
    lift (json_loads rt (content response)).

(** Lines 64-92: the replacement fields are evaluated left to right. *)
Definition build_prompt (user_data : json) : Result string :=
  name <-? getitem user_data "name" ;;
  profile <-? getitem user_data "profile" ;;
  income <-? getitem user_data "monthlyIncome" ;;
  stage <-? getitem user_data "careerStage" ;;
  spending <-? getitem user_data "spendingCategories" ;;
  transactions <-? getitem user_data "recentTransactions" ;;
  goals <-? getitem user_data "goals" ;;
  joined <-? str_join ", " goals ;;
  inr (render_prompt (py_format rt name) (py_format rt profile)
         (py_format rt income) (py_format rt stage)
         (json_dumps rt spending) (json_dumps rt transactions) joined).

(** The body of the inner [try] (lines 98-106). *)
Definition parse_ai_response (response : GenerateContentResponse)
  : Result json :=
  ai_text <-? text response ;;
  ai_text <-? strip_code_fence ai_text ;;
  json_loads rt ai_text.

(** The inner [try ... except json.JSONDecodeError] (lines 97-123). *)
Definition recommendation_of (response : GenerateContentResponse)
  : Result json :=
  match parse_ai_response response with
  | inl (JSONDecodeError _) => inr fallback_recommendation
  | other => other
  end.

Definition envelope (request : AnalysisRequest) (profile recommendation : json)
  : json :=
  JDict [ ("success", JBool true);
          ("userId", JStr (userId request));
          ("userProfile", profile);
          ("analysis", recommendation);
          ("confidence", JStr "high") ].

Definition model_name : string := "gemini-pro".

(** The body of the outer [try] (lines 50-131). *)
Definition analyze_body (request : AnalysisRequest) : M json :=
  user_data <- fetch_user_data request ;;
  prompt <- lift (build_prompt user_data) ;;
  response <- call (GenerateContent model_name prompt)
                   (generate_content rt model_name prompt) ;;
  recommendation <- lift (recommendation_of response) ;;
  profile <- lift (getitem user_data "profile") ;;
  ret (envelope request profile recommendation).

(** The handler: the body under [except Exception as e] (lines 133-134). *)
Definition analyze_career_path (request : AnalysisRequest) : M json :=
  try_except (analyze_body request)
    (fun e => raise (HTTPException 500 ("Analysis failed: " ++ exc_str rt e))).

End Handler.

(** What the inbound caller sees: FastAPI answers 200 with the returned
    value, and turns a raised [HTTPException] into its status and detail. *)
Definition http_status (r : Result json) : Z :=
  match r with
  | inr _ => 200
  | inl (HTTPException status _) => status
  | inl _ => 500
  end.

Definition http_detail (r : Result json) : option string :=
  match r with
  | inl (HTTPException _ detail) => Some detail
  | _ => None
  end.

(* ================================================================== *)
(** ** Start-up and the health check *)
(* ================================================================== *)

Definition key_not_set : exn :=
  ValueError "GEMINI_API_KEY environment variable is not set".

(** Lines 15-18, run when the module is loaded.  [getenv] is [os.getenv]
    once [load_dotenv()] has run; [if not GEMINI_API_KEY] refuses [None]
    and the empty string alike.  The result is the key handed to
    [genai.configure]. *)
Definition startup (getenv : string -> option string) : Result string :=
  match getenv "GEMINI_API_KEY" with
  | None => inl key_not_set
  | Some EmptyString => inl key_not_set
  | Some key => inr key
  end.

(** Lines 42-44. *)
Definition health_check : M json :=
  ret (JDict [ ("status", JStr "healthy"); ("service", JStr "ai-career-agent") ]).

Definition is_dict (v : json) : bool :=
  match v with JDict _ => true | _ => false end.

(* ================================================================== *)
(** ** What the properties speak of *)
(* ================================================================== *)

(** The upstream service answered 200 with [user_data], the prompt was
    rendered and the model answered [response]. *)
Definition answered (rt : Runtime) (request : AnalysisRequest)
    (user_data : json) (prompt : string)
    (response : GenerateContentResponse) : Prop :=
  exists resp,
    client_get rt (financial_data_url request) = inr resp
    /\ status_code resp = 200%Z
    /\ json_loads rt (content resp) = inr user_data
    /\ build_prompt rt user_data = inr prompt
    /\ generate_content rt model_name prompt = inr response.

(** The rule the extraction follows, on the fence markers: the text after
    the first [```json], cut at the next [```json] if there is one and then
    at its first fence; failing that, the text after the first fence, cut
    at the next fence; failing that, the text itself.  [PyStr.upto] cuts
    at the first occurrence, or not at all when there is none. *)
Inductive marker_rule (ai_text : string) : string -> Prop :=
| after_json_fence (i : nat) :
    PyStr.find json_fence ai_text = Some i ->
    marker_rule ai_text
      (PyStr.upto fence
         (PyStr.upto json_fence
            (PyStr.drop (i + String.length json_fence) ai_text)))
| after_fence (i : nat) :
    PyStr.contains json_fence ai_text = false ->
    PyStr.find fence ai_text = Some i ->
    marker_rule ai_text
      (PyStr.upto fence (PyStr.drop (i + String.length fence) ai_text))
| verbatim :
    PyStr.contains fence ai_text = false ->
    marker_rule ai_text ai_text.

(** The keys the prompt template reads, in the order it reads them. *)
Definition referenced_fields : list string :=
  [ "name"; "profile"; "monthlyIncome"; "careerStage"; "spendingCategories";
    "recentTransactions"; "goals" ].

Definition has_key (v : json) (key : string) : bool :=
  match getitem v key with inr _ => true | inl _ => false end.

Definition missing (fields : list (string * json)) (key : string) : bool :=
  match assoc key fields with Some _ => false | None => true end.

(** The first key of the template that a dict lacks, if any. *)
Definition first_missing (fields : list (string * json)) : option string :=
  List.find (missing fields) referenced_fields.

(** The upstream service answered with a status other than 200. *)
Definition not_found_path (rt : Runtime) (request : AnalysisRequest) : Prop :=
  exists resp,
    client_get rt (financial_data_url request) = inr resp
    /\ status_code resp <> 200%Z.

(** The ways the body of the handler fails with [e], the not-found path
    apart: the GET raises; the body of a 200 answer is not JSON; it is a
    JSON object that lacks a referenced field; any other exception. *)
Inductive failure (rt : Runtime) (request : AnalysisRequest) : exn -> Prop :=
| transport_error (e : exn) :
    client_get rt (financial_data_url request) = inl e ->
    failure rt request e
| malformed_body (resp : Response) (e : exn) :
    client_get rt (financial_data_url request) = inr resp ->
    status_code resp = 200%Z ->
    json_loads rt (content resp) = inl e ->
    failure rt request e
| missing_field (resp : Response) (fields : list (string * json))
    (key : string) :
    client_get rt (financial_data_url request) = inr resp ->
    status_code resp = 200%Z ->
    json_loads rt (content resp) = inr (JDict fields) ->
    first_missing fields = Some key ->
    failure rt request (KeyError key)
| other_failure (e : exn) :
    outcome (analyze_body rt request) = inl e ->
    ~ not_found_path rt request ->
    failure rt request e.

(** The ways handling the model's answer (the inner [try]) fails with [e]:
    reading [response.text] raises, or [json.loads] raises on the
    extracted text. *)
Inductive answer_failure (rt : Runtime) (response : GenerateContentResponse)
  : exn -> Prop :=
| text_raises (e : exn) :
    text response = inl e ->
    answer_failure rt response e
| loads_raises (ai_text extracted : string) (e : exn) :
    text response = inr ai_text ->
    strip_code_fence ai_text = inr extracted ->
    json_loads rt extracted = inl e ->
    answer_failure rt response e.

Definition is_decode_error (e : exn) : bool :=
  match e with JSONDecodeError _ => true | _ => false end.

(* ================================================================== *)
(** ** A concrete runtime, for running the handler on examples *)
(* ================================================================== *)

(** The interpreter's side as CPython 3.11 has it ([str] of an
    [HTTPException] as Starlette's [__str__] prints it), for
    values whose strings hold no quote, backslash or control character
    (nothing is escaped), and a [json.loads] given by the table of the texts
    an example uses.  The theorems are stated for every [Runtime]; this one
    serves to run them on concrete inputs. *)
Module Sample.

Definition dec (n : Z) : string := NilZero.string_of_int (Z.to_int n).

Definition type_name (v : json) : string :=
  match v with
  | JNull => "NoneType"
  | JBool _ => "bool"
  | JInt _ => "int"
  | JFloat _ => "float"
  | JStr _ => "str"
  | JList _ => "list"
  | JDict _ => "dict"
  end.

Definition sq (s : string) : string := "'" ++ s ++ "'".

Fixpoint py_repr (v : json) : string :=
  match v with
  | JNull => "None"
  | JBool true => "True"
  | JBool false => "False"
  | JInt n => dec n
  | JFloat r => r
  | JStr s => sq s
  | JList items => "[" ++ String.concat ", " (map py_repr items) ++ "]"
  | JDict fields =>
      "{" ++ String.concat ", "
               (map (fun kv => match kv with
                               | (k, x) => sq k ++ ": " ++ py_repr x
                               end) fields)
      ++ "}"
  end.

Definition py_str (v : json) : string :=
  match v with
  | JStr s => s
  | _ => py_repr v
  end.

Fixpoint spaces (n : nat) : string :=
  match n with
  | 0 => EmptyString
  | S n' => " " ++ spaces n'
  end.

(** [json.dumps(v, indent=2)], at nesting depth [depth]. *)
Fixpoint dumps (depth : nat) (v : json) : string :=
  let inner := nl ++ spaces (2 * S depth) in
  let outer := nl ++ spaces (2 * depth) in
  match v with
  | JNull => "null"
  | JBool true => "true"
  | JBool false => "false"
  | JInt n => dec n
  | JFloat r => r
  | JStr s => q s
  | JList [] => "[]"
  | JList items =>
      "[" ++ inner
      ++ String.concat ("," ++ inner) (map (dumps (S depth)) items)
      ++ outer ++ "]"
  | JDict [] => "{}"
  | JDict fields =>
      "{" ++ inner
      ++ String.concat ("," ++ inner)
           (map (fun kv => match kv with
                           | (k, x) => q k ++ ": " ++ dumps (S depth) x
                           end) fields)
      ++ outer ++ "}"
  end.

Definition str_of_exn (e : exn) : string :=
  match e with
  | HTTPException status detail => dec status ++ ": " ++ detail
  | JSONDecodeError msg => msg
  | KeyError key => sq key
  | TypeError (BadSubscript (JList _) _) =>
      "list indices must be integers or slices, not str"
  | TypeError (BadSubscript (JStr _) _) =>
      "string indices must be integers, not 'str'"
  | TypeError (BadSubscript v _) =>
      sq (type_name v) ++ " object is not subscriptable"
  | TypeError (JoinNotIterable _) => "can only join an iterable"
  | TypeError (JoinItemNotStr i v) =>
      "sequence item " ++ dec (Z.of_nat i) ++ ": expected str instance, "
      ++ type_name v ++ " found"
  | IndexError => "list index out of range"
  | ValueError msg => msg
  | LibraryError _ msg => msg
  end.

Definition not_json : exn :=
  JSONDecodeError "Expecting value: line 1 column 1 (char 0)".

Fixpoint lookup {A} (key : string) (table : list (string * A)) : option A :=
  match table with
  | [] => None
  | (k, v) :: rest => if String.eqb key k then Some v else lookup key rest
  end.

Definition loads (table : list (string * Result json)) (s : string)
  : Result json :=
  match lookup s table with
  | Some r => r
  | None => inl not_json
  end.

(** The upstream service answers [upstream] and the model [model]. *)
Definition runtime (upstream : Result Response)
    (table : list (string * Result json))
    (model : Result GenerateContentResponse) : Runtime :=
  {| client_get := fun _ => upstream;
     json_loads := loads table;
     json_dumps := dumps 0;
     py_format := py_str;
     generate_content := fun _ _ => model;
     exc_str := str_of_exn |}.

Definition request : AnalysisRequest :=
  {| userId := "u42"; mockDataApiUrl := default_mockDataApiUrl |}.

Definition profile_fields (goals : json) : list (string * json) :=
  [ ("name", JStr "Alex");
    ("profile", JStr "Junior analyst");
    ("monthlyIncome", JInt 4200);
    ("careerStage", JStr "early");
    ("spendingCategories", JDict [("rent", JInt 1500); ("food", JInt 600)]);
    ("recentTransactions",
      JList [JDict [("merchant", JStr "Udemy"); ("amount", JInt 85)]]);
    ("goals", goals) ].

Definition user_data : json :=
  JDict (profile_fields (JList [JStr "Learn Python"; JStr "Save more"])).

Definition profile_text_with (goals : string) : string :=
  "{" ++ q "name" ++ ": " ++ q "Alex" ++ ", "
  ++ q "profile" ++ ": " ++ q "Junior analyst" ++ ", "
  ++ q "monthlyIncome" ++ ": 4200, "
  ++ q "careerStage" ++ ": " ++ q "early" ++ ", "
  ++ q "spendingCategories" ++ ": {" ++ q "rent" ++ ": 1500, "
  ++ q "food" ++ ": 600}, "
  ++ q "recentTransactions" ++ ": [{" ++ q "merchant" ++ ": " ++ q "Udemy"
  ++ ", " ++ q "amount" ++ ": 85}], "
  ++ q "goals" ++ ": " ++ goals ++ "}".

(** The body the upstream service sends for [user_data]. *)
Definition profile_text : string :=
  profile_text_with ("[" ++ q "Learn Python" ++ ", " ++ q "Save more" ++ "]").

Definition ok (status : Z) (body : string) : Result Response :=
  inr {| status_code := status; content := body |}.

Definition says (s : string) : Result GenerateContentResponse :=
  inr {| text := inr s |}.

(** A recommendation of the expected shape, and its JSON text. *)
Definition advice_for (goal : string) : json :=
  JDict [ ("primaryGoal", JStr goal);
          ("recommendedSkills", JList [JStr "SQL"]);
          ("suggestedCourses", JList []);
          ("financialAdvice", JStr "Save 10% of income");
          ("nextSteps", JList [JStr "Enroll"]) ].

Definition advice_text_for (goal : string) : string :=
  "{" ++ q "primaryGoal" ++ ": " ++ q goal ++ ", "
  ++ q "recommendedSkills" ++ ": [" ++ q "SQL" ++ "], "
  ++ q "suggestedCourses" ++ ": [], "
  ++ q "financialAdvice" ++ ": " ++ q "Save 10% of income" ++ ", "
  ++ q "nextSteps" ++ ": [" ++ q "Enroll" ++ "]}".

Definition advice : json := advice_for "Become a data analyst".
Definition advice_text : string := advice_text_for "Become a data analyst".

Definition table : list (string * Result json) :=
  [ (profile_text, inr user_data);
    (advice_text, inr advice);
    (nl ++ advice_text ++ nl, inr advice) ].

Definition prompt : string :=
  render_prompt "Alex" "Junior analyst" "4200" "early"
    (dumps 0 (JDict [("rent", JInt 1500); ("food", JInt 600)]))
    (dumps 0 (JList [JDict [("merchant", JStr "Udemy"); ("amount", JInt 85)]]))
    "Learn Python, Save more".

Definition url : string :=
  "http://mock-data-api-service:8080/api/users/u42/financial-data".

End Sample.

(* ================================================================== *)
(** ** Inputs of the examples *)
(* ================================================================== *)

(** Two answers that are valid JSON but not a [CareerRecommendation]. *)
Definition off_shape_text : string := "{" ++ q "foo" ++ ": 1}".
Definition off_shape : json := JDict [("foo", JInt 1)].

Definition off_shape_table : list (string * Result json) :=
  (off_shape_text, inr off_shape) :: ("42", inr (JInt 42)) :: Sample.table.

(** A recommendation of the right shape whose goal mentions a fence. *)
Definition fence_goal : string := "Use ``` fences".
Definition fence_advice : json := Sample.advice_for fence_goal.
Definition fence_advice_text : string := Sample.advice_text_for fence_goal.

(** What lines 101-102 keep of it. *)
Definition fence_advice_cut : string :=
  "{" ++ q "primaryGoal" ++ ": " ++ dq ++ "Use ".

Definition fence_table : list (string * Result json) :=
  (fence_advice_text, inr fence_advice)
  :: (fence_advice_cut,
      inl (JSONDecodeError
             "Unterminated string starting at: line 1 column 17 (char 16)"))
  :: Sample.table.

(** A profile with every referenced field, whose goals are numbers. *)
Definition numeric_goals_text : string := Sample.profile_text_with "[1]".
Definition numeric_goals_data : json :=
  JDict (Sample.profile_fields (JList [JInt 1])).

Definition numeric_goals_table : list (string * Result json) :=
  (numeric_goals_text, inr numeric_goals_data) :: Sample.table.

(** A body that lacks [careerStage]. *)
Definition no_stage_text : string :=
  "{" ++ q "name" ++ ": " ++ q "Alex" ++ ", "
  ++ q "profile" ++ ": " ++ q "Junior analyst" ++ ", "
  ++ q "monthlyIncome" ++ ": 4200}".

Definition no_stage_data : list (string * json) :=
  [ ("name", JStr "Alex"); ("profile", JStr "Junior analyst");
    ("monthlyIncome", JInt 4200) ].

Definition no_stage_table : list (string * Result json) :=
  (no_stage_text, inr (JDict no_stage_data)) :: Sample.table.

Definition connect_error : exn :=
  LibraryError "httpx.ConnectError" "All connection attempts failed".

Definition no_text : exn := ValueError "The response has no text part".

(** Texts on which the extraction is read off the markers. *)
Definition upper_label_text : string :=
  fence ++ "JSON" ++ nl ++ "{}" ++ nl ++ fence.

Definition python_text : string :=
  "Run this:" ++ nl ++ fence ++ "python" ++ nl ++ "print(1)" ++ nl ++ fence.

(** A block labelled json whose content is the JSON array of the one
    string made of three backticks. *)
Definition inner_fence_text : string :=
  json_fence ++ "[" ++ q fence ++ "]" ++ fence.

Definition lone_fence_text : string := "Use " ++ fence ++ " to open a block".

Definition chatty_text : string :=
  "Here you go:" ++ nl ++ json_fence ++ (nl ++ "{}" ++ nl) ++ fence ++ nl.

(** The two bytes of U+00E9 in UTF-8. *)
Definition e_acute : string :=
  String (ascii_of_nat 195) (String (ascii_of_nat 169) EmptyString).

Definition model_down : exn :=
  LibraryError "google.api_core.exceptions.ServiceUnavailable"
    "503 The model is overloaded".

(** An upstream body that is JSON but not an object. *)
Definition array_table : list (string * Result json) :=
  ("[]", inr (JList [])) :: Sample.table.

(** The sample profile with its fields in another order and one more. *)
Definition reordered_data : json :=
  JDict (("plan", JStr "premium") :: rev (Sample.profile_fields
           (JList [JStr "Learn Python"; JStr "Save more"]))).

Example split_ex1 :
  PyStr.split "```" "a```b```c" = ["a"; "b"; "c"].
Proof. reflexivity. Qed.

Example split_ex2 :
  PyStr.split "```json" "```json{}````json" = [EmptyString; "{}`"; EmptyString].
Proof. reflexivity. Qed.

(** A closing fence followed by a backtick and [json]: the second
    [```json] is found one character into the closing fence. *)
Example strip_ex_overlap :
  strip_code_fence "```json{}````json" = inr "{}`".
Proof. reflexivity. Qed.

Example split_ex3 : PyStr.split "ab" "xyz" = ["xyz"].
Proof. reflexivity. Qed.

Example split_ex4 : PyStr.split "aa" "aaaaa" = [EmptyString; EmptyString; "a"].
Proof. reflexivity. Qed.

(* ================================================================== *)
(** ** Facts about [find] and [split] *)
(* ================================================================== *)

Module PyStrFacts.
Import PyStr.

Lemma length_app (a b : string) :
  String.length (a ++ b) = String.length a + String.length b.
Proof. induction a as [|x a IH]; simpl; [reflexivity | now rewrite IH]. Qed.

Lemma drop_app (a b : string) : drop (String.length a) (a ++ b) = b.
Proof. induction a as [|x a IH]; simpl; [now destruct b | exact IH]. Qed.

Lemma drop_add (n m : nat) (s : string) : drop (n + m) s = drop m (drop n s).
Proof.
  revert s; induction n as [|n IH]; intros s; simpl.
  - now destruct s.
  - destruct s as [|c s]; simpl; [now destruct m | apply IH].
Qed.

Lemma length_drop (n : nat) (s : string) :
  String.length (drop n s) = String.length s - n.
Proof.
  revert s; induction n as [|n IH]; intros [|c s]; simpl; auto with arith.
Qed.

Lemma prefix_nil (s : string) : prefix EmptyString s = true.
Proof. now destruct s. Qed.

Lemma prefix_cons (a b : ascii) (p s : string) :
  prefix (String a p) (String b s) = (Ascii.eqb a b && prefix p s)%bool.
Proof.
  simpl. destruct (ascii_dec a b) as [->|ne].
  - now rewrite Ascii.eqb_refl.
  - apply Ascii.eqb_neq in ne. now rewrite ne.
Qed.

Lemma prefix_app_self (p r : string) : prefix p (p ++ r) = true.
Proof.
  induction p as [|a p IH]; [apply prefix_nil|].
  change (String a p ++ r) with (String a (p ++ r)).
  now rewrite prefix_cons, Ascii.eqb_refl, IH.
Qed.

Lemma prefix_decompose (p s : string) :
  prefix p s = true -> s = p ++ drop (String.length p) s.
Proof.
  revert s; induction p as [|a p IH]; intros s H.
  - now destruct s.
  - destruct s as [|b s]; [discriminate H|].
    rewrite prefix_cons in H. apply andb_true_iff in H as [Hab Hp].
    apply Ascii.eqb_eq in Hab; subst b. simpl. f_equal. now apply IH.
Qed.

(** A prefix of a prefix is a prefix. *)
Lemma prefix_trans (p r s : string) :
  prefix p r = true -> prefix r s = true -> prefix p s = true.
Proof.
  revert r s; induction p as [|a p IH]; intros r s Hpr Hrs.
  - apply prefix_nil.
  - destruct r as [|b r]; [discriminate Hpr|].
    destruct s as [|c s]; [discriminate Hrs|].
    rewrite prefix_cons in *.
    apply andb_true_iff in Hpr as [Hab Hpr].
    apply andb_true_iff in Hrs as [Hbc Hrs].
    apply Ascii.eqb_eq in Hab, Hbc; subst.
    rewrite Ascii.eqb_refl. simpl. eapply IH; eassumption.
Qed.

Lemma find_cons (sub : string) (c : ascii) (s : string) :
  find sub (String c s) =
  if prefix sub (String c s) then Some 0 else option_map S (find sub s).
Proof. reflexivity. Qed.

Lemma find_bound (sub s : string) (i : nat) :
  find sub s = Some i -> i + String.length sub <= String.length s.
Proof.
  revert i; induction s as [|c s IH]; intros i H.
  - destruct sub; simpl in H; [|discriminate H].
    injection H as <-. simpl; lia.
  - rewrite find_cons in H. destruct (prefix sub (String c s)) eqn:P.
    + injection H as <-. apply prefix_decompose in P.
      apply (f_equal String.length) in P. rewrite length_app in P. lia.
    + destruct (find sub s) as [j|]; [|discriminate H].
      injection H as <-. specialize (IH j eq_refl). simpl. lia.
Qed.

Lemma find_decompose (sub s : string) (i : nat) :
  find sub s = Some i ->
  s = take i s ++ sub ++ drop (i + String.length sub) s.
Proof.
  revert i; induction s as [|c s IH]; intros i H.
  - destruct sub; simpl in H; [|discriminate H].
    injection H as <-. reflexivity.
  - rewrite find_cons in H. destruct (prefix sub (String c s)) eqn:P.
    + injection H as <-. now apply prefix_decompose in P.
    + destruct (find sub s) as [j|]; [|discriminate H].
      injection H as <-. simpl. f_equal. now apply IH.
Qed.

Lemma split_fuel_enough (sep s : string) (n : nat) :
  sep <> EmptyString -> String.length s <= n ->
  split_fuel n sep s = split sep s.
Proof.
  intros Hsep. unfold split.
  remember (String.length s) as m eqn:Hm.
  assert (Hle : String.length s <= m) by lia. clear Hm.
  revert s n Hle. induction m as [|m IH]; intros s n Hle Hn.
  - destruct s; [|simpl in Hle; lia].
    destruct n; simpl; [reflexivity|].
    destruct sep; [congruence | reflexivity].
  - destruct n as [|n].
    + destruct s; [|simpl in Hn; lia].
      simpl. destruct sep; [congruence | reflexivity].
    + simpl. destruct (find sep s) as [i|] eqn:F; [|reflexivity].
      f_equal.
      pose proof (find_bound _ _ _ F) as B.
      assert (L : 0 < String.length sep) by (destruct sep; [congruence | simpl; lia]).
      pose proof (length_drop (i + String.length sep) s) as D.
      apply IH; lia.
Qed.

(** The equation [split] satisfies. *)
Lemma split_unfold (sep s : string) :
  sep <> EmptyString ->
  split sep s =
  match find sep s with
  | None => [s]
  | Some i => take i s :: split sep (drop (i + String.length sep) s)
  end.
Proof.
  intros Hsep. unfold split at 1.
  destruct (String.length s) as [|n] eqn:L.
  - destruct s; [|discriminate L]. simpl.
    destruct sep; [congruence | reflexivity].
  - simpl. destruct (find sep s) as [i|] eqn:F; [|reflexivity].
    f_equal. apply split_fuel_enough; [assumption|].
    pose proof (find_bound _ _ _ F) as B.
    assert (0 < String.length sep) by (destruct sep; [congruence | simpl; lia]).
    rewrite length_drop. lia.
Qed.

Lemma upto_cons (sub : string) (c : ascii) (s : string) :
  upto sub (String c s) =
  if prefix sub (String c s) then EmptyString else String c (upto sub s).
Proof. reflexivity. Qed.

Lemma upto_find (sub s : string) :
  upto sub s = match find sub s with Some i => take i s | None => s end.
Proof.
  induction s as [|c s IH].
  - now destruct sub.
  - rewrite find_cons, upto_cons.
    destruct (prefix sub (String c s)); [reflexivity|].
    rewrite IH. now destruct (find sub s).
Qed.

Lemma index_split_0 (sep s : string) :
  sep <> EmptyString -> index (split sep s) 0 = inr (upto sep s).
Proof.
  intros Hsep. rewrite split_unfold, upto_find by assumption.
  now destruct (find sep s).
Qed.

Lemma index_split_1 (sep s : string) (i : nat) :
  sep <> EmptyString -> find sep s = Some i ->
  index (split sep s) 1 = inr (upto sep (drop (i + String.length sep) s)).
Proof.
  intros Hsep F. rewrite split_unfold, F by assumption.
  change (index (?x :: ?l) 1) with (index l 0).
  now apply index_split_0.
Qed.

Lemma upto_is_prefix (sub s : string) : prefix (upto sub s) s = true.
Proof.
  induction s as [|c s IH].
  - now destruct sub.
  - rewrite upto_cons. destruct (prefix sub (String c s)); [reflexivity|].
    now rewrite prefix_cons, Ascii.eqb_refl, IH.
Qed.

Lemma contains_cons_false (sub : string) (c : ascii) (s : string) :
  contains sub (String c s) = false ->
  prefix sub (String c s) = false /\ contains sub s = false.
Proof.
  unfold contains. rewrite find_cons.
  destruct (prefix sub (String c s)); [discriminate|].
  destruct (find sub s); [discriminate | auto].
Qed.

Lemma upto_idem (sub s : string) : upto sub (upto sub s) = upto sub s.
Proof.
  induction s as [|c s IH].
  - now destruct sub.
  - rewrite (upto_cons sub c s). destruct (prefix sub (String c s)) eqn:P.
    + now destruct sub.
    + rewrite upto_cons, IH.
      destruct (prefix sub (String c (upto sub s))) eqn:Q; [|reflexivity].
      exfalso.
      assert (T : prefix sub (String c s) = true).
      { eapply prefix_trans; [exact Q|].
        now rewrite prefix_cons, Ascii.eqb_refl, upto_is_prefix. }
      congruence.
Qed.

End PyStrFacts.

(* ================================================================== *)
(** ** The fence-stripping step *)
(* ================================================================== *)

Module Strip.
Import PyStr PyStrFacts.

Lemma fence_nonempty : fence <> EmptyString.
Proof. discriminate. Qed.

Lemma json_fence_nonempty : json_fence <> EmptyString.
Proof. discriminate. Qed.

(** The two subscripts of lines 102 and 104 never raise [IndexError]. *)
Lemma strip_code_fence_stripped (ai_text : string) :
  strip_code_fence ai_text = inr (stripped ai_text).
Proof.
  unfold strip_code_fence, stripped, contains.
  destruct (find json_fence ai_text) as [i|] eqn:J.
  - rewrite (index_split_1 _ _ _ json_fence_nonempty J). simpl rbind.
    apply index_split_0, fence_nonempty.
  - destruct (find fence ai_text) as [i|] eqn:F; [|reflexivity].
    rewrite (index_split_1 _ _ _ fence_nonempty F). simpl rbind.
    apply index_split_0, fence_nonempty.
Qed.

Lemma find_of_prefix (sub s : string) :
  prefix sub s = true -> find sub s = Some 0.
Proof.
  intros P. destruct s as [|c s].
  - destruct sub; [reflexivity | discriminate P].
  - now rewrite find_cons, P.
Qed.

Lemma drop_block (pre open rest : string) :
  drop (String.length pre + String.length open) (pre ++ open ++ rest) = rest.
Proof. now rewrite drop_add, !drop_app. Qed.

Lemma last_is_cons (x a b : ascii) (s : string) :
  last_is x (String a (String b s)) = last_is x (String b s).
Proof.
  unfold last_is. simpl String.length.
  replace (S (S (String.length s)) - 1) with (S (String.length s)) by lia.
  replace (S (String.length s) - 1) with (String.length s) by lia.
  reflexivity.
Qed.

Lemma fence_prefix_3 (a b d : ascii) (s : string) :
  prefix fence (String a (String b (String d s))) =
  (Ascii.eqb backtick a && Ascii.eqb backtick b && Ascii.eqb backtick d)%bool.
Proof.
  unfold fence. rewrite !prefix_cons, prefix_nil.
  now rewrite andb_true_r, andb_assoc.
Qed.

(** A closing fence that follows content with no fence inside and no
    backtick at its end is the first fence of the text. *)
Lemma no_early_fence (a : ascii) (c post : string) :
  contains fence (String a c) = false ->
  last_is backtick (String a c) = false ->
  prefix fence (String a (c ++ fence ++ post)) = false.
Proof.
  intros Hc Hl. destruct c as [|b [|d c]].
  - change (Ascii.eqb backtick a = false) in Hl.
    change (EmptyString ++ fence ++ post)
      with (String backtick (String backtick (String backtick post))).
    rewrite fence_prefix_3. now rewrite Hl.
  - change (Ascii.eqb backtick b = false) in Hl.
    change (String b EmptyString ++ fence ++ post)
      with (String b (String backtick (String backtick (String backtick post)))).
    rewrite fence_prefix_3. rewrite Hl. now rewrite andb_false_r.
  - apply contains_cons_false in Hc as [Hp _].
    change (String b (String d c) ++ fence ++ post)
      with (String b (String d (c ++ fence ++ post))).
    rewrite fence_prefix_3 in *. exact Hp.
Qed.

Lemma last_is_tail (x a : ascii) (c : string) :
  last_is x (String a c) = false -> last_is x c = false.
Proof.
  destruct c as [|b c]; [reflexivity | now rewrite last_is_cons].
Qed.

Lemma json_fence_prefix_fence (s : string) :
  prefix json_fence s = true -> prefix fence s = true.
Proof. apply prefix_trans. reflexivity. Qed.

Lemma json_fence_closes (c post : string) :
  contains fence c = false ->
  last_is backtick c = false ->
  first_is backtick post = false ->
  upto fence (upto json_fence (c ++ fence ++ post)) = c.
Proof.
  intros Hc Hl Hp. induction c as [|a c IH].
  - destruct post as [|d post]; [reflexivity|].
    change (Ascii.eqb backtick d = false) in Hp.
    change (EmptyString ++ fence ++ String d post)
      with (String backtick (String backtick (String backtick (String d post)))).
    rewrite (upto_cons json_fence).
    destruct (prefix json_fence _) eqn:P0; [reflexivity|].
    assert (P1 : prefix json_fence
                   (String backtick (String backtick (String d post))) = false).
    { unfold json_fence. rewrite !prefix_cons. fold backtick. rewrite Hp.
      now rewrite !andb_false_r. }
    assert (P2 : prefix json_fence (String backtick (String d post)) = false).
    { unfold json_fence. rewrite !prefix_cons. fold backtick. rewrite Hp.
      now rewrite !andb_false_r. }
    rewrite (upto_cons json_fence), P1, (upto_cons json_fence), P2.
    now rewrite upto_cons, fence_prefix_3, !Ascii.eqb_refl.
  - change (String a c ++ fence ++ post) with (String a (c ++ fence ++ post)).
    pose proof (no_early_fence _ _ post Hc Hl) as N.
    rewrite upto_cons.
    destruct (prefix json_fence (String a (c ++ fence ++ post))) eqn:P.
    + apply json_fence_prefix_fence in P. congruence.
    + rewrite upto_cons.
      destruct (prefix fence (String a (upto json_fence (c ++ fence ++ post))))
        eqn:Q.
      * exfalso.
        assert (T : prefix fence (String a (c ++ fence ++ post)) = true).
        { eapply prefix_trans; [exact Q|].
          now rewrite prefix_cons, Ascii.eqb_refl, upto_is_prefix. }
        congruence.
      * f_equal. apply IH.
        -- now apply contains_cons_false in Hc.
        -- exact (last_is_tail _ _ _ Hl).
Qed.

(** A block opened by the first [```json] and closed by a fence: its
    content is what is extracted. *)
Lemma strip_json_block (pre c post : string) :
  find json_fence (pre ++ json_fence ++ c ++ fence ++ post)
    = Some (String.length pre) ->
  contains fence c = false ->
  last_is backtick c = false ->
  first_is backtick post = false ->
  strip_code_fence (pre ++ json_fence ++ c ++ fence ++ post) = inr c.
Proof.
  intros F Hc Hl Hp.
  rewrite strip_code_fence_stripped. unfold stripped. rewrite F, drop_block.
  f_equal. now apply json_fence_closes.
Qed.

Lemma no_fence_no_json_fence (s : string) :
  contains fence s = false -> contains json_fence s = false.
Proof.
  induction s as [|c s IH]; intros H; [reflexivity|].
  apply contains_cons_false in H as [P N].
  unfold contains. rewrite find_cons.
  destruct (prefix json_fence (String c s)) eqn:Q.
  - apply json_fence_prefix_fence in Q. congruence.
  - specialize (IH N). unfold contains in IH.
    now destruct (find json_fence s).
Qed.

(** No fence at all: the text is kept as it is. *)
Lemma strip_no_fence (ai_text : string) :
  contains fence ai_text = false ->
  strip_code_fence ai_text = inr ai_text.
Proof.
  intros F. unfold strip_code_fence.
  now rewrite (no_fence_no_json_fence _ F), F.
Qed.

End Strip.

(* ================================================================== *)
(** ** Sample runs *)
(* ================================================================== *)

Example sample_dumps :
  Sample.dumps 0 (JDict [("rent", JInt 1500); ("food", JInt 600)])
  = "{" ++ nl ++ "  " ++ q "rent" ++ ": 1500," ++ nl
    ++ "  " ++ q "food" ++ ": 600" ++ nl ++ "}".
Proof. reflexivity. Qed.

Example sample_run_plain :
  analyze_career_path
    (Sample.runtime (Sample.ok 200 Sample.profile_text) Sample.table
       (Sample.says Sample.advice_text))
    Sample.request
  = ([Get Sample.url; GenerateContent "gemini-pro" Sample.prompt],
     inr (envelope Sample.request (JStr "Junior analyst") Sample.advice)).
Proof. vm_compute. reflexivity. Qed.

Example sample_run_prose :
  outcome (analyze_career_path
    (Sample.runtime (Sample.ok 200 Sample.profile_text) Sample.table
       (Sample.says "I cannot answer that."))
    Sample.request)
  = inr (envelope Sample.request (JStr "Junior analyst") fallback_recommendation).
Proof. vm_compute. reflexivity. Qed.

(* ================================================================== *)
(** ** How a run of the handler unfolds *)
(* ================================================================== *)

Section Runs.

Variable rt : Runtime.
Variable request : AnalysisRequest.

Local Abbreviation url := (financial_data_url request).

(** The handler's result is the body's, with any exception rewrapped. *)
Lemma analyze_career_path_body :
  analyze_career_path rt request =
  (calls (analyze_body rt request),
   match outcome (analyze_body rt request) with
   | inl e => inl (HTTPException 500 ("Analysis failed: " ++ exc_str rt e))
   | inr v => inr v
   end).
Proof.
  unfold analyze_career_path, try_except, calls, outcome.
  destruct (analyze_body rt request) as [log [e|v]]; simpl;
    [now rewrite List.app_nil_r | reflexivity].
Qed.

Lemma fetch_user_data_transport (e : exn) :
  client_get rt url = inl e ->
  fetch_user_data rt request = ([Get url], inl e).
Proof.
  intros H. unfold fetch_user_data, call, bind. now rewrite H.
Qed.

Lemma fetch_user_data_response (resp : Response) :
  client_get rt url = inr resp ->
  fetch_user_data rt request =
  ([Get url],
   if Z.eqb (status_code resp) 200 then json_loads rt (content resp)
   else inl (HTTPException 404 "User data not found")).
Proof.
  intros H. unfold fetch_user_data, call, bind, raise, lift.
  rewrite H. now destruct (Z.eqb (status_code resp) 200).
Qed.

(** The body stops at the first step that raises. *)
Lemma analyze_body_fetch_raises (e : exn) :
  fetch_user_data rt request = ([Get url], inl e) ->
  analyze_body rt request = ([Get url], inl e).
Proof. intros H. unfold analyze_body, bind. now rewrite H. Qed.

Lemma analyze_body_fetched (user_data : json) :
  fetch_user_data rt request = ([Get url], inr user_data) ->
  analyze_body rt request =
  match build_prompt rt user_data with
  | inl e => ([Get url], inl e)
  | inr prompt =>
      ([Get url; GenerateContent model_name prompt],
       response <-? generate_content rt model_name prompt ;;
       recommendation <-? recommendation_of rt response ;;
       profile <-? getitem user_data "profile" ;;
       inr (envelope request profile recommendation))
  end.
Proof.
  intros H. unfold analyze_body, bind, lift, call, ret. rewrite H.
  destruct (build_prompt rt user_data) as [e|prompt]; [reflexivity|].
  destruct (generate_content rt model_name prompt) as [e|response];
    [reflexivity|].
  simpl. destruct (recommendation_of rt response) as [e|rec]; [reflexivity|].
  simpl. now destruct (getitem user_data "profile").
Qed.

Lemma build_prompt_has_profile (user_data : json) (prompt : string) :
  build_prompt rt user_data = inr prompt ->
  exists profile, getitem user_data "profile" = inr profile.
Proof.
  unfold build_prompt, rbind. intros H.
  destruct (getitem user_data "name"); [discriminate H|].
  destruct (getitem user_data "profile") as [|profile]; [discriminate H|].
  now exists profile.
Qed.

Lemma analyze_body_answered (user_data : json) (prompt : string)
    (response : GenerateContentResponse) :
  answered rt request user_data prompt response ->
  exists profile,
    getitem user_data "profile" = inr profile
    /\ analyze_body rt request =
       ([Get url; GenerateContent model_name prompt],
        recommendation <-? recommendation_of rt response ;;
        inr (envelope request profile recommendation)).
Proof.
  intros (resp & Hget & Hst & Hjs & Hp & Hg).
  destruct (build_prompt_has_profile _ _ Hp) as [profile Hprof].
  exists profile. split; [exact Hprof|].
  pose proof (fetch_user_data_response _ Hget) as F.
  rewrite Hst, Hjs in F. simpl in F.
  rewrite (analyze_body_fetched _ F), Hp, Hg. simpl.
  destruct (recommendation_of rt response); simpl; [reflexivity|].
  now rewrite Hprof.
Qed.

Lemma recommendation_of_extracted (response : GenerateContentResponse)
    (ai_text extracted : string) :
  text response = inr ai_text ->
  strip_code_fence ai_text = inr extracted ->
  recommendation_of rt response =
  match json_loads rt extracted with
  | inl (JSONDecodeError _) => inr fallback_recommendation
  | other => other
  end.
Proof.
  intros Ht Hs. unfold recommendation_of, parse_ai_response.
  rewrite Ht. unfold rbind at 1. rewrite Hs. reflexivity.
Qed.

End Runs.

(* ================================================================== *)
(** ** Upstream status handling *)
(* ================================================================== *)

(** C1, on the code: when the upstream service answers with a status other
    than 200, the body of the handler raises [HTTPException(404, "User data
    not found")] without calling the model, but that exception is itself
    caught by the enclosing [except Exception] and raised again with status
    500: the inbound caller receives 500 "Analysis failed: ...", not 404. *)
Theorem C1_not_found_reaches_caller_as_500
    (rt : Runtime) (request : AnalysisRequest) (resp : Response) :
  client_get rt (financial_data_url request) = inr resp ->
  status_code resp <> 200%Z ->
  outcome (analyze_body rt request)
    = inl (HTTPException 404 "User data not found")
  /\ analyze_career_path rt request
     = ([Get (financial_data_url request)],
        inl (HTTPException 500
               ("Analysis failed: "
                ++ exc_str rt (HTTPException 404 "User data not found"))))
  /\ http_status (outcome (analyze_career_path rt request)) = 500%Z
  /\ model_invoked (analyze_career_path rt request) = false.
Proof.
  intros Hget Hst.
  pose proof (fetch_user_data_response rt request resp Hget) as F.
  apply Z.eqb_neq in Hst. rewrite Hst in F.
  pose proof (analyze_body_fetch_raises rt request _ F) as B.
  rewrite analyze_career_path_body, B. simpl. auto.
Qed.

Lemma C1_not_found_reaches_caller_as_500_witness :
  let rt := Sample.runtime (Sample.ok 404 "Not Found") Sample.table
              (Sample.says Sample.advice_text) in
  outcome (analyze_body rt Sample.request)
    = inl (HTTPException 404 "User data not found")
  /\ analyze_career_path rt Sample.request
     = ([Get Sample.url],
        inl (HTTPException 500 "Analysis failed: 404: User data not found"))
  /\ http_status (outcome (analyze_career_path rt Sample.request)) = 500%Z
  /\ model_invoked (analyze_career_path rt Sample.request) = false.
Proof.
  intros rt.
  apply (C1_not_found_reaches_caller_as_500 rt Sample.request
           {| status_code := 404; content := "Not Found" |}).
  - reflexivity.
  - discriminate.
Defined.

(** C2 fails on the code: the test is [status_code != 200], so a 201 with
    a perfectly good body takes the not-found path and the model is never
    called. *)
Lemma C2_status_201_counterexample :
  let rt := Sample.runtime (Sample.ok 201 Sample.profile_text) Sample.table
              (Sample.says Sample.advice_text) in
  (200 <=? 201)%Z && (201 <? 300)%Z = true
  /\ json_loads rt Sample.profile_text = inr Sample.user_data
  /\ fetch_user_data rt Sample.request
     = ([Get Sample.url], inl (HTTPException 404 "User data not found"))
  /\ fetch_user_data rt Sample.request
     <> ([Get Sample.url], inr Sample.user_data)
  /\ model_invoked (analyze_career_path rt Sample.request) = false.
Proof.
  intros rt. repeat split; try reflexivity. discriminate.
Qed.

(** C2, amended: the not-found error is raised exactly when the upstream
    status differs from 200.  Only a 200 is treated as success: the body
    is then parsed and, once the prompt is rendered, sent to the model.
    Every other status, other 2xx codes included, raises the not-found
    error whatever the body holds, and the model is not called. *)
Theorem C2_not_found_iff_status_not_200
    (rt : Runtime) (request : AnalysisRequest) (resp : Response) :
  client_get rt (financial_data_url request) = inr resp ->
  (status_code resp <> 200%Z ->
     fetch_user_data rt request
       = ([Get (financial_data_url request)],
          inl (HTTPException 404 "User data not found"))
     /\ model_invoked (analyze_body rt request) = false)
  /\ (status_code resp = 200%Z ->
        fetch_user_data rt request
          = ([Get (financial_data_url request)],
             json_loads rt (content resp))
        /\ forall user_data prompt,
             json_loads rt (content resp) = inr user_data ->
             build_prompt rt user_data = inr prompt ->
             calls (analyze_body rt request)
               = [Get (financial_data_url request);
                  GenerateContent model_name prompt]).
Proof.
  intros Hget.
  pose proof (fetch_user_data_response rt request resp Hget) as F.
  split; intros Hst.
  - apply Z.eqb_neq in Hst. rewrite Hst in F. split; [exact F|].
    now rewrite (analyze_body_fetch_raises rt request _ F).
  - apply Z.eqb_eq in Hst. rewrite Hst in F. split; [exact F|].
    intros user_data prompt Hjs Hp. rewrite Hjs in F.
    now rewrite (analyze_body_fetched rt request _ F), Hp.
Qed.

Lemma C2_not_found_iff_status_not_200_witness :
  let model := Sample.says Sample.advice_text in
  let rt200 := Sample.runtime (Sample.ok 200 Sample.profile_text)
                 Sample.table model in
  let rt204 := Sample.runtime (Sample.ok 204 EmptyString) Sample.table model in
  (fetch_user_data rt200 Sample.request
     = ([Get Sample.url], inr Sample.user_data)
   /\ calls (analyze_body rt200 Sample.request)
      = [Get Sample.url; GenerateContent model_name Sample.prompt])
  /\ (fetch_user_data rt204 Sample.request
        = ([Get Sample.url], inl (HTTPException 404 "User data not found"))
      /\ model_invoked (analyze_body rt204 Sample.request) = false).
Proof.
  intros model rt200 rt204. split.
  - destruct (C2_not_found_iff_status_not_200 rt200 Sample.request
                {| status_code := 200; content := Sample.profile_text |}
                eq_refl) as [_ Hok].
    destruct (Hok eq_refl) as [Hfetch Hcalls].
    split.
    + exact Hfetch.
    + exact (Hcalls Sample.user_data Sample.prompt eq_refl eq_refl).
  - refine (proj1 (C2_not_found_iff_status_not_200 rt204 Sample.request
                     {| status_code := 204; content := EmptyString |}
                     eq_refl) _).
    discriminate.
Defined.

(* ================================================================== *)
(** ** Parsing the model's answer *)
(* ================================================================== *)



(** C4 fails on the code: the answer is parsed with [json.loads] alone and
    never checked against [CareerRecommendation], so a JSON object with the
    wrong fields, or a bare number, is returned as the analysis, not
    replaced by the fallback. *)
Lemma C4_off_shape_json_counterexample :
  let upstream := Sample.ok 200 Sample.profile_text in
  let rt1 := Sample.runtime upstream off_shape_table
               (Sample.says off_shape_text) in
  let rt2 := Sample.runtime upstream off_shape_table (Sample.says "42") in
  CareerRecommendation off_shape = false
  /\ CareerRecommendation (JInt 42) = false
  /\ outcome (analyze_career_path rt1 Sample.request)
     = inr (envelope Sample.request (JStr "Junior analyst") off_shape)
  /\ outcome (analyze_career_path rt2 Sample.request)
     = inr (envelope Sample.request (JStr "Junior analyst") (JInt 42))
  /\ off_shape <> fallback_recommendation
  /\ JInt 42 <> fallback_recommendation.
Proof.
  intros upstream rt1 rt2.
  repeat split; try (vm_compute; reflexivity); discriminate.
Qed.

(** C4, amended: the extracted text is parsed as JSON, with no check
    against the [CareerRecommendation] shape.  The fallback is substituted
    whenever that parse fails with a JSON decode error; text that is valid
    JSON is used as the recommendation as it is, whatever its shape. *)
Theorem C4_fallback_on_decode_error_only
    (rt : Runtime) (response : GenerateContentResponse)
    (ai_text extracted : string) :
  text response = inr ai_text ->
  strip_code_fence ai_text = inr extracted ->
  (forall msg, json_loads rt extracted = inl (JSONDecodeError msg) ->
     recommendation_of rt response = inr fallback_recommendation)
  /\ (forall v, json_loads rt extracted = inr v ->
        recommendation_of rt response = inr v).
Proof.
  intros Htext Hstrip.
  rewrite (recommendation_of_extracted rt _ _ _ Htext Hstrip).
  split; [intros msg H | intros v H]; now rewrite H.
Qed.

Lemma C4_fallback_on_decode_error_only_witness :
  let rt := Sample.runtime (Sample.ok 200 Sample.profile_text)
              off_shape_table (Sample.says off_shape_text) in
  recommendation_of rt {| text := inr off_shape_text |} = inr off_shape
  /\ recommendation_of rt {| text := inr "Sorry." |}
     = inr fallback_recommendation.
Proof.
  intros rt. split.
  - exact (proj2 (C4_fallback_on_decode_error_only rt
                    {| text := inr off_shape_text |}
                    off_shape_text off_shape_text eq_refl eq_refl)
             off_shape eq_refl).
  - exact (proj1 (C4_fallback_on_decode_error_only rt
                    {| text := inr "Sorry." |} "Sorry." "Sorry."
                    eq_refl eq_refl)
             "Expecting value: line 1 column 1 (char 0)" eq_refl).
Defined.

(** C5 fails on the code: the content of the block is cut at its first
    three backticks, so valid JSON of the right shape that holds three
    backticks inside a string is truncated, does not parse, and the
    fallback is returned in its place. *)
Lemma C5_backticks_in_content_counterexample :
  let rt := Sample.runtime (Sample.ok 200 Sample.profile_text) fence_table
              (Sample.says (json_fence ++ fence_advice_text ++ fence)) in
  json_loads rt fence_advice_text = inr fence_advice
  /\ CareerRecommendation fence_advice = true
  /\ strip_code_fence (json_fence ++ fence_advice_text ++ fence)
     = inr fence_advice_cut
  /\ outcome (analyze_career_path rt Sample.request)
     = inr (envelope Sample.request (JStr "Junior analyst")
              fallback_recommendation)
  /\ fence_advice <> fallback_recommendation.
Proof.
  intros rt.
  repeat split; try (vm_compute; reflexivity); discriminate.
Qed.

(** C5, amended: for a model output that consists of a fenced block
    labelled json whose content is valid JSON of the [CareerRecommendation]
    shape and holds no run of three backticks (and, as JSON text, does not
    end in a backtick), the [analysis] field of the returned envelope is
    that parsed value. *)
Theorem C5_fenced_json_is_returned
    (rt : Runtime) (request : AnalysisRequest) (user_data : json)
    (prompt : string) (response : GenerateContentResponse)
    (block : string) (v : json) :
  answered rt request user_data prompt response ->
  text response = inr (json_fence ++ block ++ fence) ->
  json_loads rt block = inr v ->
  CareerRecommendation v = true ->
  PyStr.contains fence block = false ->
  PyStr.last_is backtick block = false ->
  exists result,
    outcome (analyze_career_path rt request) = inr result
    /\ getitem result "analysis" = inr v.
Proof.
  intros Hans Htext Hjson _ Hc Hl.
  destruct (analyze_body_answered rt request _ _ _ Hans)
    as (profile & _ & Hbody).
  assert (Hstrip : strip_code_fence (json_fence ++ block ++ fence) = inr block).
  { change (json_fence ++ block ++ fence)
      with (EmptyString ++ json_fence ++ block ++ fence ++ EmptyString).
    apply Strip.strip_json_block; try assumption; [|reflexivity].
    apply Strip.find_of_prefix.
    exact (PyStrFacts.prefix_app_self json_fence (block ++ fence)). }
  assert (Hrec : recommendation_of rt response = inr v).
  { rewrite (recommendation_of_extracted rt _ _ _ Htext Hstrip).
    now rewrite Hjson. }
  exists (envelope request profile v).
  rewrite analyze_career_path_body, Hbody, Hrec. simpl.
  split; reflexivity.
Qed.

Lemma C5_fenced_json_is_returned_witness :
  let rt := Sample.runtime (Sample.ok 200 Sample.profile_text) Sample.table
              (Sample.says (json_fence ++ (nl ++ Sample.advice_text ++ nl)
                            ++ fence)) in
  exists result,
    outcome (analyze_career_path rt Sample.request) = inr result
    /\ getitem result "analysis" = inr Sample.advice.
Proof.
  intros rt.
  apply (C5_fenced_json_is_returned rt Sample.request Sample.user_data
           Sample.prompt
           {| text := inr (json_fence ++ (nl ++ Sample.advice_text ++ nl)
                           ++ fence) |}
           (nl ++ Sample.advice_text ++ nl) Sample.advice).
  - exists {| status_code := 200; content := Sample.profile_text |}.
    repeat split; reflexivity.
  - reflexivity.
  - reflexivity.
  - reflexivity.
  - reflexivity.
  - reflexivity.
Defined.

(* ================================================================== *)
(** ** The extraction rule *)
(* ================================================================== *)

(** C6 fails on the code: the step cuts at markers, it does not look for
    blocks.  A block labelled [JSON] in upper case, or [python], is not
    found by [```json]: the second case takes what follows the fence, label
    included, not the content of the block.  The content of a block
    labelled json is cut at the first fence it holds.  And a text with a
    single fence holds no block, yet it is not used verbatim. *)
Lemma C6_markers_not_blocks_counterexample :
  (PyStr.contains json_fence upper_label_text = false
   /\ strip_code_fence upper_label_text = inr ("JSON" ++ nl ++ "{}" ++ nl)
   /\ strip_code_fence upper_label_text <> inr (nl ++ "{}" ++ nl))
  /\ (strip_code_fence python_text
        = inr ("python" ++ nl ++ "print(1)" ++ nl)
      /\ strip_code_fence python_text <> inr (nl ++ "print(1)" ++ nl))
  /\ (strip_code_fence inner_fence_text = inr ("[" ++ dq)
      /\ strip_code_fence inner_fence_text <> inr ("[" ++ q fence ++ "]"))
  /\ (PyStr.split fence lone_fence_text = ["Use "; " to open a block"]
      /\ strip_code_fence lone_fence_text = inr " to open a block"
      /\ strip_code_fence lone_fence_text <> inr lone_fence_text).
Proof.
  repeat split; try reflexivity; intros H; vm_compute in H; discriminate H.
Qed.

(** C6, amended: the extraction step follows a three-case rule on the
    fence markers.  If the text contains [```json], the text after its
    first occurrence is taken, cut at the next [```json] if there is one
    and then at its first fence.  Otherwise, if the text contains a fence,
    the text after its first occurrence is taken, cut at the next fence,
    with any label that follows the opening fence.  Otherwise the raw text
    is used verbatim.  A cut is made at the marker when it occurs and not
    at all when it does not; the step returns this and nothing else. *)
Theorem C6_extraction_follows_marker_rule (ai_text extracted : string) :
  strip_code_fence ai_text = inr extracted <-> marker_rule ai_text extracted.
Proof.
  rewrite Strip.strip_code_fence_stripped. unfold stripped. split.
  - intros H. injection H as <-.
    destruct (PyStr.find json_fence ai_text) as [i|] eqn:J.
    + now apply after_json_fence.
    + destruct (PyStr.find fence ai_text) as [i|] eqn:F.
      * cbv zeta. rewrite PyStrFacts.upto_idem.
        apply after_fence; [|exact F]. unfold PyStr.contains. now rewrite J.
      * apply verbatim. unfold PyStr.contains. now rewrite F.
  - intros [i J | i N F | N].
    + now rewrite J.
    + unfold PyStr.contains in N.
      destruct (PyStr.find json_fence ai_text); [discriminate N|].
      rewrite F. cbv zeta. now rewrite PyStrFacts.upto_idem.
    + pose proof (Strip.no_fence_no_json_fence _ N) as J.
      unfold PyStr.contains in N, J.
      destruct (PyStr.find json_fence ai_text); [discriminate J|].
      now destruct (PyStr.find fence ai_text).
Qed.

Lemma C6_extraction_follows_marker_rule_witness :
  strip_code_fence python_text = inr ("python" ++ nl ++ "print(1)" ++ nl)
  /\ strip_code_fence chatty_text = inr (nl ++ "{}" ++ nl)
  /\ marker_rule "{}" "{}".
Proof.
  split; [|split].
  - exact (proj2 (C6_extraction_follows_marker_rule python_text _)
             (after_fence python_text 10 eq_refl eq_refl)).
  - exact (proj2 (C6_extraction_follows_marker_rule chatty_text _)
             (after_json_fence chatty_text 13 eq_refl)).
  - exact (proj1 (C6_extraction_follows_marker_rule "{}" "{}") eq_refl).
Defined.

(* ================================================================== *)
(** ** The success envelope *)
(* ================================================================== *)

(** C7: whenever the handler returns, what it returns is the dict with
    exactly the five entries [success = True], [userId] of the request,
    [userProfile] the [profile] field of the fetched user data, [analysis]
    the recommendation (the parsed answer, or the fallback after a JSON
    decode error) and [confidence = "high"]. *)
Theorem C7_success_envelope
    (rt : Runtime) (request : AnalysisRequest) (result : json) :
  outcome (analyze_career_path rt request) = inr result ->
  exists user_data prompt response profile recommendation,
    answered rt request user_data prompt response
    /\ getitem user_data "profile" = inr profile
    /\ (parse_ai_response rt response = inr recommendation
        \/ (exists msg, parse_ai_response rt response
                          = inl (JSONDecodeError msg))
           /\ recommendation = fallback_recommendation)
    /\ result = JDict [ ("success", JBool true);
                        ("userId", JStr (userId request));
                        ("userProfile", profile);
                        ("analysis", recommendation);
                        ("confidence", JStr "high") ].
Proof.
  intros H. rewrite analyze_career_path_body in H. unfold outcome in H.
  simpl in H.
  destruct (client_get rt (financial_data_url request)) as [e|resp] eqn:Hget.
  { rewrite (analyze_body_fetch_raises rt request _
               (fetch_user_data_transport rt request e Hget)) in H.
    discriminate H. }
  pose proof (fetch_user_data_response rt request resp Hget) as F.
  destruct (Z.eqb (status_code resp) 200) eqn:Hst.
  2:{ rewrite (analyze_body_fetch_raises rt request _ F) in H.
      discriminate H. }
  destruct (json_loads rt (content resp)) as [e|user_data] eqn:Hjs.
  { rewrite (analyze_body_fetch_raises rt request _ F) in H.
    discriminate H. }
  rewrite (analyze_body_fetched rt request _ F) in H.
  destruct (build_prompt rt user_data) as [e|prompt] eqn:Hp;
    [discriminate H|].
  simpl in H.
  destruct (generate_content rt model_name prompt) as [e|response] eqn:Hg;
    [discriminate H|].
  simpl in H.
  destruct (recommendation_of rt response) as [e|recommendation] eqn:Hrec;
    [discriminate H|].
  simpl in H.
  destruct (getitem user_data "profile") as [e|profile] eqn:Hprof;
    [discriminate H|].
  simpl in H. injection H as <-.
  exists user_data, prompt, response, profile, recommendation.
  split; [|split; [exact Hprof | split; [|reflexivity]]].
  - exists resp. apply Z.eqb_eq in Hst. auto.
  - unfold recommendation_of in Hrec.
    destruct (parse_ai_response rt response) as [[]|v];
      try discriminate Hrec; injection Hrec as <-.
    + right. split; [eexists; reflexivity | reflexivity].
    + now left.
Qed.

Lemma C7_success_envelope_witness :
  let rt := Sample.runtime (Sample.ok 200 Sample.profile_text) Sample.table
              (Sample.says Sample.advice_text) in
  outcome (analyze_career_path rt Sample.request)
    = inr (JDict [ ("success", JBool true);
                   ("userId", JStr "u42");
                   ("userProfile", JStr "Junior analyst");
                   ("analysis", Sample.advice);
                   ("confidence", JStr "high") ])
  /\ exists user_data prompt response profile recommendation,
       answered rt Sample.request user_data prompt response
       /\ getitem user_data "profile" = inr profile
       /\ (parse_ai_response rt response = inr recommendation
           \/ (exists msg, parse_ai_response rt response
                             = inl (JSONDecodeError msg))
              /\ recommendation = fallback_recommendation)
       /\ envelope Sample.request (JStr "Junior analyst") Sample.advice
          = JDict [ ("success", JBool true);
                    ("userId", JStr (userId Sample.request));
                    ("userProfile", profile);
                    ("analysis", recommendation);
                    ("confidence", JStr "high") ].
Proof.
  intros rt.
  assert (R : outcome (analyze_career_path rt Sample.request)
              = inr (envelope Sample.request (JStr "Junior analyst")
                       Sample.advice))
    by (vm_compute; reflexivity).
  split; [exact R|].
  exact (C7_success_envelope rt Sample.request _ R).
Defined.

(* ================================================================== *)
(** ** The prompt *)
(* ================================================================== *)

Lemma contains_head (sub rest : string) :
  PyStr.contains sub (sub ++ rest) = true.
Proof.
  unfold PyStr.contains.
  now rewrite (Strip.find_of_prefix _ _ (PyStrFacts.prefix_app_self sub rest)).
Qed.

Lemma contains_skip (pre sub s : string) :
  PyStr.contains sub s = true -> PyStr.contains sub (pre ++ s) = true.
Proof.
  intros H. induction pre as [|c pre IH]; [exact H|].
  change (String c pre ++ s) with (String c (pre ++ s)).
  unfold PyStr.contains in *. rewrite PyStrFacts.find_cons.
  destruct (prefix sub (String c (pre ++ s))); [reflexivity|].
  now destruct (PyStr.find sub (pre ++ s)).
Qed.

(** Finds a replacement field in the chain of pieces of the prompt. *)
Ltac in_prompt :=
  unfold render_prompt;
  repeat first [ apply contains_head | apply contains_skip ].

Lemma render_prompt_contains
    (name profile income stage spending transactions goals : string) :
  let prompt :=
    render_prompt name profile income stage spending transactions goals in
  PyStr.contains name prompt = true
  /\ PyStr.contains profile prompt = true
  /\ PyStr.contains income prompt = true
  /\ PyStr.contains stage prompt = true
  /\ PyStr.contains spending prompt = true
  /\ PyStr.contains transactions prompt = true
  /\ PyStr.contains goals prompt = true.
Proof.
  intros prompt. subst prompt. repeat split; in_prompt.
Qed.

Lemma strs_from_strings (i : nat) (goals : list string) :
  strs_from i (map JStr goals) = inr goals.
Proof.
  revert i. induction goals as [|g goals IH]; intros i; [reflexivity|].
  simpl. now rewrite IH.
Qed.

(** C8 fails on the code: presence of the referenced fields is not enough.
    [', '.join] refuses goals that are not strings, so for a well-formed
    body that has every field no prompt is rendered at all. *)
Lemma C8_goals_not_strings_counterexample :
  let rt := Sample.runtime (Sample.ok 200 numeric_goals_text)
              numeric_goals_table (Sample.says Sample.advice_text) in
  json_loads rt numeric_goals_text = inr numeric_goals_data
  /\ forallb (has_key numeric_goals_data) referenced_fields = true
  /\ build_prompt rt numeric_goals_data
     = inl (TypeError (JoinItemNotStr 0 (JInt 1)))
  /\ analyze_career_path rt Sample.request
     = ([Get Sample.url],
        inl (HTTPException 500
               "Analysis failed: sequence item 0: expected str instance, int found")).
Proof.
  intros rt. repeat split; vm_compute; reflexivity.
Qed.

(** C8, amended: for an upstream response with status 200 and a well-formed
    JSON body that has all the referenced fields and whose goals are a
    sequence of strings, the prompt sent to the model is [render_prompt] of
    the seven rendered fields, a function of those fields alone, and it
    contains each rendered value verbatim: name, profile, monthly income
    and career stage as formatted by the f-string, spending categories and
    recent transactions as [json.dumps(..., indent=2)] prints them, and the
    goals joined with a comma and a space. *)
Theorem C8_prompt_renders_every_field
    (rt : Runtime) (request : AnalysisRequest) (resp : Response)
    (user_data name profile income stage spending transactions : json)
    (goals : list string) :
  client_get rt (financial_data_url request) = inr resp ->
  status_code resp = 200%Z ->
  json_loads rt (content resp) = inr user_data ->
  getitem user_data "name" = inr name ->
  getitem user_data "profile" = inr profile ->
  getitem user_data "monthlyIncome" = inr income ->
  getitem user_data "careerStage" = inr stage ->
  getitem user_data "spendingCategories" = inr spending ->
  getitem user_data "recentTransactions" = inr transactions ->
  getitem user_data "goals" = inr (JList (map JStr goals)) ->
  let prompt :=
    render_prompt (py_format rt name) (py_format rt profile)
      (py_format rt income) (py_format rt stage)
      (json_dumps rt spending) (json_dumps rt transactions)
      (PyStr.join ", " goals) in
  build_prompt rt user_data = inr prompt
  /\ calls (analyze_career_path rt request)
     = [Get (financial_data_url request); GenerateContent model_name prompt]
  /\ PyStr.contains (py_format rt name) prompt = true
  /\ PyStr.contains (py_format rt profile) prompt = true
  /\ PyStr.contains (py_format rt income) prompt = true
  /\ PyStr.contains (py_format rt stage) prompt = true
  /\ PyStr.contains (json_dumps rt spending) prompt = true
  /\ PyStr.contains (json_dumps rt transactions) prompt = true
  /\ PyStr.contains (PyStr.join ", " goals) prompt = true.
Proof.
  intros Hget Hst Hjs Hn Hpr Hi Hs Hsp Ht Hg prompt.
  assert (Hp : build_prompt rt user_data = inr prompt).
  { unfold build_prompt. rewrite Hn, Hpr, Hi, Hs, Hsp, Ht, Hg.
    unfold rbind, str_join. rewrite strs_from_strings. reflexivity. }
  split; [exact Hp|]. split.
  - pose proof (fetch_user_data_response rt request resp Hget) as F.
    apply Z.eqb_eq in Hst. rewrite Hst, Hjs in F.
    now rewrite analyze_career_path_body,
      (analyze_body_fetched rt request _ F), Hp.
  - apply render_prompt_contains.
Qed.

Lemma C8_prompt_renders_every_field_witness :
  let rt := Sample.runtime (Sample.ok 200 Sample.profile_text) Sample.table
              (Sample.says Sample.advice_text) in
  build_prompt rt Sample.user_data = inr Sample.prompt
  /\ calls (analyze_career_path rt Sample.request)
     = [Get Sample.url; GenerateContent model_name Sample.prompt]
  /\ PyStr.contains "Alex" Sample.prompt = true
  /\ PyStr.contains "Junior analyst" Sample.prompt = true
  /\ PyStr.contains "4200" Sample.prompt = true
  /\ PyStr.contains "early" Sample.prompt = true
  /\ PyStr.contains
       ("{" ++ nl ++ "  " ++ q "rent" ++ ": 1500," ++ nl
        ++ "  " ++ q "food" ++ ": 600" ++ nl ++ "}") Sample.prompt = true
  /\ PyStr.contains
       ("[" ++ nl ++ "  {" ++ nl ++ "    " ++ q "merchant" ++ ": "
        ++ q "Udemy" ++ "," ++ nl ++ "    " ++ q "amount" ++ ": 85" ++ nl
        ++ "  }" ++ nl ++ "]") Sample.prompt = true
  /\ PyStr.contains "Learn Python, Save more" Sample.prompt = true.
Proof.
  intros rt.
  exact (C8_prompt_renders_every_field rt Sample.request
           {| status_code := 200; content := Sample.profile_text |}
           Sample.user_data (JStr "Alex") (JStr "Junior analyst")
           (JInt 4200) (JStr "early")
           (JDict [("rent", JInt 1500); ("food", JInt 600)])
           (JList [JDict [("merchant", JStr "Udemy"); ("amount", JInt 85)]])
           ["Learn Python"; "Save more"]
           eq_refl eq_refl eq_refl eq_refl eq_refl eq_refl eq_refl eq_refl
           eq_refl eq_refl).
Defined.

(* ================================================================== *)
(** ** Failures *)
(* ================================================================== *)

Lemma first_missing_exists (fields : list (string * json)) (key : string) :
  In key referenced_fields -> assoc key fields = None ->
  exists k, first_missing fields = Some k.
Proof.
  intros Hin Hnone. unfold first_missing.
  destruct (List.find (missing fields) referenced_fields) as [k|] eqn:F.
  - now exists k.
  - pose proof (List.find_none _ _ F key Hin) as N.
    unfold missing in N. rewrite Hnone in N. discriminate N.
Qed.

Lemma build_prompt_missing_field (rt : Runtime)
    (fields : list (string * json)) (key : string) :
  first_missing fields = Some key ->
  build_prompt rt (JDict fields) = inl (KeyError key).
Proof.
  unfold first_missing, referenced_fields, build_prompt, getitem, missing.
  simpl List.find. unfold rbind.
  repeat match goal with
         | |- context [assoc ?k fields] => destruct (assoc k fields)
         end;
    intros H; first [ discriminate H | now injection H as <- ].
Qed.

Lemma failure_raises (rt : Runtime) (request : AnalysisRequest) (e : exn) :
  failure rt request e -> outcome (analyze_body rt request) = inl e.
Proof.
  intros [e' Hget | resp e' Hget Hst Hjs | resp fields key Hget Hst Hjs Hm
          | e' Hbody _].
  - now rewrite (analyze_body_fetch_raises rt request _
                   (fetch_user_data_transport rt request e' Hget)).
  - pose proof (fetch_user_data_response rt request resp Hget) as F.
    apply Z.eqb_eq in Hst. rewrite Hst, Hjs in F.
    now rewrite (analyze_body_fetch_raises rt request _ F).
  - pose proof (fetch_user_data_response rt request resp Hget) as F.
    apply Z.eqb_eq in Hst. rewrite Hst, Hjs in F.
    now rewrite (analyze_body_fetched rt request _ F),
      (build_prompt_missing_field rt fields key Hm).
  - exact Hbody.
Qed.

(** C9: every failure inside the handler other than the not-found path (a
    transport error of the upstream call, an upstream body that is not
    JSON, an upstream body that lacks a referenced field, or any other
    exception) is caught and reaches the caller as HTTP 500 whose detail
    is "Analysis failed: " followed by the failure's message; no envelope
    is returned. *)
Theorem C9_failures_surface_as_500
    (rt : Runtime) (request : AnalysisRequest) (e : exn) :
  failure rt request e ->
  let result := outcome (analyze_career_path rt request) in
  result = inl (HTTPException 500 ("Analysis failed: " ++ exc_str rt e))
  /\ http_status result = 500%Z
  /\ http_detail result = Some ("Analysis failed: " ++ exc_str rt e)
  /\ (forall detail, http_detail result = Some detail ->
        prefix "Analysis failed: " detail = true)
  /\ forall v, result <> inr v.
Proof.
  intros Hf result. subst result.
  apply failure_raises in Hf.
  rewrite analyze_career_path_body. unfold outcome in *. simpl.
  rewrite Hf. simpl. repeat split.
  - intros detail H. injection H as <-.
    exact (PyStrFacts.prefix_app_self "Analysis failed: " (exc_str rt e)).
  - discriminate.
Qed.

Lemma C9_failures_surface_as_500_witness :
  let model := Sample.says Sample.advice_text in
  outcome (analyze_career_path
             (Sample.runtime (inl connect_error) Sample.table model)
             Sample.request)
    = inl (HTTPException 500
             "Analysis failed: All connection attempts failed")
  /\ outcome (analyze_career_path
                (Sample.runtime (Sample.ok 200 "<html>oops</html>")
                   Sample.table model)
                Sample.request)
     = inl (HTTPException 500
              "Analysis failed: Expecting value: line 1 column 1 (char 0)")
  /\ outcome (analyze_career_path
                (Sample.runtime (Sample.ok 200 no_stage_text)
                   no_stage_table model)
                Sample.request)
     = inl (HTTPException 500 "Analysis failed: 'careerStage'").
Proof.
  intros model. split; [|split].
  - refine (proj1 (C9_failures_surface_as_500
             (Sample.runtime (inl connect_error) Sample.table model)
             Sample.request connect_error _)).
    apply transport_error. reflexivity.
  - refine (proj1 (C9_failures_surface_as_500
             (Sample.runtime (Sample.ok 200 "<html>oops</html>")
                Sample.table model)
             Sample.request Sample.not_json _)).
    apply (malformed_body _ _
             {| status_code := 200; content := "<html>oops</html>" |});
      reflexivity.
  - refine (proj1 (C9_failures_surface_as_500
             (Sample.runtime (Sample.ok 200 no_stage_text)
                no_stage_table model)
             Sample.request (KeyError "careerStage") _)).
    apply (missing_field _ _
             {| status_code := 200; content := no_stage_text |}
             no_stage_data "careerStage");
      reflexivity.
Defined.

Lemma answer_failure_raises (rt : Runtime)
    (response : GenerateContentResponse) (e : exn) :
  answer_failure rt response e -> parse_ai_response rt response = inl e.
Proof.
  intros [e' Ht | ai_text extracted e' Ht Hs Hj]; unfold parse_ai_response.
  - now rewrite Ht.
  - rewrite Ht. unfold rbind at 1. rewrite Hs. exact Hj.
Qed.

(** C10: the fallback is substituted only on a JSON decode error.  Any
    other exception raised while the model's answer is handled, such as an
    error reading the [text] attribute of the response, is not replaced by
    the fallback: it reaches the outer handler and the caller gets HTTP 500
    "Analysis failed: ..." and no envelope.  A JSON decode error instead
    yields the envelope with the fallback. *)
Theorem C10_fallback_only_on_decode_error
    (rt : Runtime) (request : AnalysisRequest) (user_data : json)
    (prompt : string) (response : GenerateContentResponse) (e : exn) :
  answered rt request user_data prompt response ->
  answer_failure rt response e ->
  let result := outcome (analyze_career_path rt request) in
  (is_decode_error e = false ->
     result = inl (HTTPException 500 ("Analysis failed: " ++ exc_str rt e))
     /\ http_status result = 500%Z)
  /\ (is_decode_error e = true ->
        exists profile,
          result = inr (envelope request profile fallback_recommendation)).
Proof.
  intros Hans Hf result. subst result.
  apply answer_failure_raises in Hf.
  destruct (analyze_body_answered rt request _ _ _ Hans)
    as (profile & _ & Hbody).
  rewrite analyze_career_path_body, Hbody. unfold outcome. simpl.
  unfold recommendation_of. rewrite Hf.
  split; intros Hd.
  - destruct e; try discriminate Hd; simpl; auto.
  - destruct e; try discriminate Hd. now exists profile.
Qed.

Lemma C10_fallback_only_on_decode_error_witness :
  let rt := Sample.runtime (Sample.ok 200 Sample.profile_text) Sample.table
              (inr {| text := inl no_text |}) in
  outcome (analyze_career_path rt Sample.request)
    = inl (HTTPException 500 "Analysis failed: The response has no text part")
  /\ http_status (outcome (analyze_career_path rt Sample.request)) = 500%Z.
Proof.
  intros rt.
  refine (proj1 (C10_fallback_only_on_decode_error rt Sample.request
                   Sample.user_data Sample.prompt
                   {| text := inl no_text |} no_text _ _) eq_refl).
  - exists {| status_code := 200; content := Sample.profile_text |}.
    repeat split; reflexivity.
  - apply text_raises. reflexivity.
Defined.

(* ================================================================== *)
(** ** More on [in], [split] and [join] *)
(* ================================================================== *)

Module PyStrMore.
Import PyStr PyStrFacts.

Lemma app_assoc (a b c : string) : (a ++ b) ++ c = a ++ b ++ c.
Proof. induction a as [|x a IH]; simpl; [reflexivity | now rewrite IH]. Qed.

Lemma app_nil_r (s : string) : s ++ EmptyString = s.
Proof. induction s as [|c s IH]; simpl; [reflexivity | now rewrite IH]. Qed.

Lemma contains_intro (pre sub post : string) :
  contains sub (pre ++ sub ++ post) = true.
Proof.
  induction pre as [|c pre IH].
  - unfold contains. simpl append.
    now rewrite (Strip.find_of_prefix _ _ (prefix_app_self sub post)).
  - change (String c pre ++ sub ++ post) with (String c (pre ++ sub ++ post)).
    unfold contains in *. rewrite find_cons.
    destruct (prefix sub (String c (pre ++ sub ++ post))); [reflexivity|].
    now destruct (find sub (pre ++ sub ++ post)).
Qed.

Lemma contains_elim (sub s : string) :
  contains sub s = true -> exists pre post, s = pre ++ sub ++ post.
Proof.
  unfold contains. destruct (find sub s) as [i|] eqn:F; [|discriminate].
  intros _. exists (take i s), (drop (i + String.length sub) s).
  now apply find_decompose.
Qed.

Lemma contains_trans (a b c : string) :
  contains a b = true -> contains b c = true -> contains a c = true.
Proof.
  intros Hab Hbc.
  destruct (contains_elim _ _ Hab) as (p1 & q1 & ->).
  destruct (contains_elim _ _ Hbc) as (p2 & q2 & ->).
  rewrite !app_assoc, <- (app_assoc p2 p1). apply contains_intro.
Qed.

Lemma prefix_elim (p s : string) :
  prefix p s = true -> exists tail, s = p ++ tail.
Proof.
  intros H. exists (drop (String.length p) s). now apply prefix_decompose.
Qed.

(** The text before the first occurrence holds no occurrence. *)
Lemma upto_free (sub s : string) :
  sub <> EmptyString -> contains sub (upto sub s) = false.
Proof.
  intros Hsub. induction s as [|c s IH].
  - destruct sub; [congruence | reflexivity].
  - rewrite upto_cons. destruct (prefix sub (String c s)) eqn:P.
    + destruct sub; [congruence | reflexivity].
    + unfold contains in *. rewrite find_cons.
      destruct (prefix sub (String c (upto sub s))) eqn:Q.
      * exfalso.
        assert (T : prefix sub (String c s) = true).
        { eapply prefix_trans; [exact Q|].
          now rewrite prefix_cons, Ascii.eqb_refl, upto_is_prefix. }
        congruence.
      * now destruct (find sub (upto sub s)).
Qed.

(** Induction along the cuts [split] makes. *)
Lemma split_ind (sep : string) (P : string -> list string -> Prop) :
  sep <> EmptyString ->
  (forall s, find sep s = None -> P s [s]) ->
  (forall s i,
     find sep s = Some i ->
     P (drop (i + String.length sep) s)
       (split sep (drop (i + String.length sep) s)) ->
     P s (take i s :: split sep (drop (i + String.length sep) s))) ->
  forall s, P s (split sep s).
Proof.
  intros Hsep Hnone Hsome s.
  remember (String.length s) as n eqn:Hn.
  assert (Hle : String.length s <= n) by lia. clear Hn.
  revert s Hle. induction n as [|n IH]; intros s Hle;
    rewrite (split_unfold sep s Hsep);
    destruct (find sep s) as [i|] eqn:F; try now apply Hnone.
  - exfalso. pose proof (find_bound _ _ _ F) as B.
    destruct sep; [congruence | simpl in B; lia].
  - apply Hsome; [exact F|]. apply IH.
    pose proof (find_bound _ _ _ F) as B. rewrite length_drop.
    destruct sep; [congruence | simpl in *; lia].
Qed.

Lemma split_not_nil (sep s : string) :
  sep <> EmptyString -> split sep s <> [].
Proof.
  intros Hsep. rewrite (split_unfold sep s Hsep).
  now destruct (find sep s).
Qed.

End PyStrMore.

(** X1: [sub in s] holds exactly when [s] can be cut into a piece, [sub]
    and another piece. *)
Theorem X1_in_operator_finds_occurrences (sub s : string) :
  PyStr.contains sub s = true <-> exists pre post, s = pre ++ sub ++ post.
Proof.
  split.
  - apply PyStrMore.contains_elim.
  - intros (pre & post & ->). apply PyStrMore.contains_intro.
Qed.

Lemma concat_cons (sep a : string) (l : list string) :
  l <> [] -> String.concat sep (a :: l) = a ++ sep ++ String.concat sep l.
Proof. destruct l; [congruence | reflexivity]. Qed.

(** X2: joining the pieces of [s.split(sep)] with [sep] gives [s] back. *)
Theorem X2_join_split_round_trip (sep s : string) :
  sep <> EmptyString ->
  PyStr.join sep (PyStr.split sep s) = s.
Proof.
  intros Hsep. unfold PyStr.join.
  apply (PyStrMore.split_ind sep (fun t l => String.concat sep l = t) Hsep).
  - reflexivity.
  - intros t i F IH.
    rewrite concat_cons by now apply PyStrMore.split_not_nil.
    rewrite IH. symmetry. now apply PyStrFacts.find_decompose.
Qed.

Lemma X2_join_split_round_trip_witness :
  PyStr.join fence (PyStr.split fence "a```b```c") = "a```b```c"
  /\ PyStr.split fence "a```b```c" = ["a"; "b"; "c"].
Proof.
  split.
  - apply X2_join_split_round_trip. discriminate.
  - reflexivity.
Defined.

(** X3: [s.split(sep)] always has a first piece; it has a second piece
    exactly when [sep in s].  Without an occurrence the result is [[s]]
    and the subscript [[1]] raises [IndexError]: the [in] tests of lines
    101 and 103 are what makes the subscripts of lines 102 and 104 safe. *)
Theorem X3_split_subscripts (sep s : string) :
  sep <> EmptyString ->
  (exists piece, index (PyStr.split sep s) 0 = inr piece)
  /\ (PyStr.contains sep s = true ->
        exists piece, index (PyStr.split sep s) 1 = inr piece)
  /\ (PyStr.contains sep s = false ->
        PyStr.split sep s = [s]
        /\ index (PyStr.split sep s) 1 = inl IndexError).
Proof.
  intros Hsep. unfold PyStr.contains.
  split; [|split].
  - rewrite (PyStrFacts.index_split_0 _ _ Hsep). eauto.
  - destruct (PyStr.find sep s) as [i|] eqn:F; [|discriminate].
    intros _. rewrite (PyStrFacts.index_split_1 _ _ _ Hsep F). eauto.
  - rewrite (PyStrFacts.split_unfold sep s Hsep).
    destruct (PyStr.find sep s); [discriminate|]. auto.
Qed.

Lemma X3_split_subscripts_witness :
  index (PyStr.split json_fence "no fence here") 1 = inl IndexError
  /\ exists piece, index (PyStr.split json_fence "```json{}```") 1 = inr piece.
Proof.
  assert (N : json_fence <> EmptyString) by discriminate.
  split.
  - exact (proj2 (proj2 (proj2 (X3_split_subscripts json_fence
                                  "no fence here" N)) eq_refl)).
  - exact (proj1 (proj2 (X3_split_subscripts json_fence "```json{}```" N))
             eq_refl).
Defined.

(** X4: no piece of [s.split(sep)] contains [sep]. *)
Theorem X4_split_pieces_hold_no_separator (sep s : string) :
  sep <> EmptyString ->
  Forall (fun piece => PyStr.contains sep piece = false) (PyStr.split sep s).
Proof.
  intros Hsep.
  apply (PyStrMore.split_ind sep
           (fun _ l => Forall (fun p => PyStr.contains sep p = false) l)
           Hsep).
  - intros t F. constructor; [|constructor].
    unfold PyStr.contains. now rewrite F.
  - intros t i F IH. constructor; [|exact IH].
    pose proof (PyStrFacts.upto_find sep t) as U. rewrite F in U.
    rewrite <- U. now apply PyStrMore.upto_free.
Qed.

Lemma X4_split_pieces_hold_no_separator_witness :
  Forall (fun piece => PyStr.contains "aa" piece = false)
    [EmptyString; EmptyString; "a"].
Proof.
  change [EmptyString; EmptyString; "a"] with (PyStr.split "aa" "aaaaa").
  apply X4_split_pieces_hold_no_separator. discriminate.
Defined.

(* ================================================================== *)
(** ** More on the fence-stripping step *)
(* ================================================================== *)

Lemma stripped_is_part (ai_text : string) :
  exists pre post, ai_text = pre ++ stripped ai_text ++ post.
Proof.
  unfold stripped.
  destruct (PyStr.find json_fence ai_text) as [i|] eqn:J.
  - pose proof (PyStrFacts.find_decompose _ _ _ J) as D.
    set (rest := PyStr.drop (i + String.length json_fence) ai_text) in *.
    destruct (PyStrMore.prefix_elim _ _
                (PyStrFacts.upto_is_prefix json_fence rest)) as [t1 E1].
    destruct (PyStrMore.prefix_elim _ _
                (PyStrFacts.upto_is_prefix fence
                   (PyStr.upto json_fence rest))) as [t2 E2].
    exists (PyStr.take i ai_text ++ json_fence), (t2 ++ t1).
    cbv zeta. rewrite D at 1. rewrite E1 at 1. rewrite E2 at 1.
    now rewrite !PyStrMore.app_assoc.
  - destruct (PyStr.find fence ai_text) as [i|] eqn:F.
    + pose proof (PyStrFacts.find_decompose _ _ _ F) as D.
      set (rest := PyStr.drop (i + String.length fence) ai_text) in *.
      rewrite PyStrFacts.upto_idem.
      destruct (PyStrMore.prefix_elim _ _
                  (PyStrFacts.upto_is_prefix fence rest)) as [t1 E1].
      exists (PyStr.take i ai_text ++ fence), t1.
      cbv zeta. rewrite D at 1. rewrite E1 at 1.
      now rewrite !PyStrMore.app_assoc.
    + exists EmptyString, EmptyString.
      now rewrite PyStrMore.app_nil_r.
Qed.

Lemma stripped_is_fence_free (ai_text : string) :
  PyStr.contains fence (stripped ai_text) = false.
Proof.
  unfold stripped.
  destruct (PyStr.find json_fence ai_text) as [i|].
  - apply PyStrMore.upto_free, Strip.fence_nonempty.
  - destruct (PyStr.find fence ai_text) as [i|] eqn:F.
    + apply PyStrMore.upto_free, Strip.fence_nonempty.
    + unfold PyStr.contains. now rewrite F.
Qed.

(** X5: the extraction step never raises, and what it extracts is a
    contiguous part of the model's text: it only removes characters. *)
Theorem X5_extraction_returns_part_of_text (ai_text : string) :
  exists extracted pre post,
    strip_code_fence ai_text = inr extracted
    /\ ai_text = pre ++ extracted ++ post.
Proof.
  destruct (stripped_is_part ai_text) as (pre & post & E).
  exists (stripped ai_text), pre, post.
  split; [apply Strip.strip_code_fence_stripped | exact E].
Qed.

(** X6: the text handed to [json.loads] never contains three backticks in
    a row. *)
Theorem X6_extracted_text_has_no_fence (ai_text extracted : string) :
  strip_code_fence ai_text = inr extracted ->
  PyStr.contains fence extracted = false.
Proof.
  rewrite Strip.strip_code_fence_stripped. intros H. injection H as <-.
  apply stripped_is_fence_free.
Qed.

Lemma X6_extracted_text_has_no_fence_witness :
  strip_code_fence ("```json" ++ fence_advice_text ++ "```")
    = inr fence_advice_cut
  /\ PyStr.contains fence fence_advice_cut = false.
Proof.
  assert (E : strip_code_fence ("```json" ++ fence_advice_text ++ "```")
              = inr fence_advice_cut) by reflexivity.
  split; [exact E|].
  exact (X6_extracted_text_has_no_fence _ _ E).
Defined.

(** X7: extracting twice is extracting once. *)
Theorem X7_extraction_is_idempotent (ai_text extracted : string) :
  strip_code_fence ai_text = inr extracted ->
  strip_code_fence extracted = inr extracted.
Proof.
  rewrite Strip.strip_code_fence_stripped. intros H. injection H as <-.
  apply Strip.strip_no_fence, stripped_is_fence_free.
Qed.

Lemma X7_extraction_is_idempotent_witness :
  strip_code_fence ("Sure. " ++ fence ++ "[1, 2]" ++ fence ++ " Done.")
    = inr "[1, 2]"
  /\ strip_code_fence "[1, 2]" = inr "[1, 2]".
Proof.
  assert (E : strip_code_fence
                ("Sure. " ++ fence ++ "[1, 2]" ++ fence ++ " Done.")
              = inr "[1, 2]") by reflexivity.
  split; [exact E|].
  exact (X7_extraction_is_idempotent _ _ E).
Defined.

(* ================================================================== *)
(** ** More on the handler *)
(* ================================================================== *)

(** A string is joined character by character, not byte by byte. *)
Example join_string_goals :
  str_join ", " (JStr ("h" ++ e_acute ++ "llo"))
  = inr ("h, " ++ e_acute ++ ", l, l, o").
Proof. reflexivity. Qed.

Example health_check_run :
  calls health_check = [] /\ http_status (outcome health_check) = 200%Z.
Proof. split; reflexivity. Qed.

(** X9: the handler makes one GET, to the URL built from the request, and
    after it at most one call to the model, never more and never in another
    order.  The model is called only once the upstream service has answered
    200 with a body that parsed and from which the prompt was rendered, and
    it is sent that prompt. *)
Theorem X9_outbound_calls (rt : Runtime) (request : AnalysisRequest) :
  calls (analyze_career_path rt request) = [Get (financial_data_url request)]
  \/ exists resp user_data prompt,
       client_get rt (financial_data_url request) = inr resp
       /\ status_code resp = 200%Z
       /\ json_loads rt (content resp) = inr user_data
       /\ build_prompt rt user_data = inr prompt
       /\ calls (analyze_career_path rt request)
          = [Get (financial_data_url request);
             GenerateContent model_name prompt].
Proof.
  rewrite analyze_career_path_body. unfold calls at 1 3. simpl.
  destruct (client_get rt (financial_data_url request)) as [e|resp] eqn:Hget.
  { left. now rewrite (analyze_body_fetch_raises rt request _
                         (fetch_user_data_transport rt request e Hget)). }
  pose proof (fetch_user_data_response rt request resp Hget) as F.
  destruct (Z.eqb (status_code resp) 200) eqn:Hst.
  2:{ left. now rewrite (analyze_body_fetch_raises rt request _ F). }
  destruct (json_loads rt (content resp)) as [e|user_data] eqn:Hjs.
  { left. now rewrite (analyze_body_fetch_raises rt request _ F). }
  rewrite (analyze_body_fetched rt request _ F).
  destruct (build_prompt rt user_data) as [e|prompt] eqn:Hp.
  { now left. }
  right. exists resp, user_data, prompt.
  apply Z.eqb_eq in Hst. auto.
Qed.

(** X10: an exception raised by the call to the model, whatever it is, is
    not replaced by the fallback: the request fails with status 500 and
    the exception's message, after both outbound calls were made. *)
Theorem X10_model_error_is_not_recovered
    (rt : Runtime) (request : AnalysisRequest) (resp : Response)
    (user_data : json) (prompt : string) (e : exn) :
  client_get rt (financial_data_url request) = inr resp ->
  status_code resp = 200%Z ->
  json_loads rt (content resp) = inr user_data ->
  build_prompt rt user_data = inr prompt ->
  generate_content rt model_name prompt = inl e ->
  analyze_career_path rt request
  = ([Get (financial_data_url request); GenerateContent model_name prompt],
     inl (HTTPException 500 ("Analysis failed: " ++ exc_str rt e))).
Proof.
  intros Hget Hst Hjs Hp Hg.
  pose proof (fetch_user_data_response rt request resp Hget) as F.
  apply Z.eqb_eq in Hst. rewrite Hst, Hjs in F.
  now rewrite analyze_career_path_body,
    (analyze_body_fetched rt request _ F), Hp, Hg.
Qed.

Lemma X10_model_error_is_not_recovered_witness :
  analyze_career_path
    (Sample.runtime (Sample.ok 200 Sample.profile_text) Sample.table
       (inl model_down))
    Sample.request
  = ([Get Sample.url; GenerateContent model_name Sample.prompt],
     inl (HTTPException 500 "Analysis failed: 503 The model is overloaded")).
Proof.
  exact (X10_model_error_is_not_recovered
           (Sample.runtime (Sample.ok 200 Sample.profile_text) Sample.table
              (inl model_down))
           Sample.request
           {| status_code := 200; content := Sample.profile_text |}
           Sample.user_data Sample.prompt model_down
           eq_refl eq_refl eq_refl eq_refl eq_refl).
Defined.

(** X11: an upstream body that is valid JSON but not an object (an array,
    a string, a number, [true], [null]) fails at the first subscript,
    [user_data['name']], with a [TypeError]: the request ends in status
    500 and the model is not called. *)
Theorem X11_non_object_body_fails
    (rt : Runtime) (request : AnalysisRequest) (resp : Response) (v : json) :
  client_get rt (financial_data_url request) = inr resp ->
  status_code resp = 200%Z ->
  json_loads rt (content resp) = inr v ->
  is_dict v = false ->
  analyze_career_path rt request
  = ([Get (financial_data_url request)],
     inl (HTTPException 500
            ("Analysis failed: "
             ++ exc_str rt (TypeError (BadSubscript v "name"))))).
Proof.
  intros Hget Hst Hjs Hd.
  pose proof (fetch_user_data_response rt request resp Hget) as F.
  apply Z.eqb_eq in Hst. rewrite Hst, Hjs in F.
  rewrite analyze_career_path_body, (analyze_body_fetched rt request _ F).
  assert (B : build_prompt rt v = inl (TypeError (BadSubscript v "name")))
    by (destruct v; try reflexivity; discriminate Hd).
  now rewrite B.
Qed.

Lemma X11_non_object_body_fails_witness :
  analyze_career_path
    (Sample.runtime (Sample.ok 200 "[]") array_table
       (Sample.says Sample.advice_text))
    Sample.request
  = ([Get Sample.url],
     inl (HTTPException 500
            "Analysis failed: list indices must be integers or slices, not str")).
Proof.
  exact (X11_non_object_body_fails
           (Sample.runtime (Sample.ok 200 "[]") array_table
              (Sample.says Sample.advice_text))
           Sample.request {| status_code := 200; content := "[]" |}
           (JList []) eq_refl eq_refl eq_refl eq_refl).
Defined.

(** X12: the prompt, or the exception raised while it is rendered, depends
    on the seven referenced fields of the user data only: other fields and
    the order of the fields are ignored. *)
Theorem X12_prompt_reads_referenced_fields_only
    (rt : Runtime) (data1 data2 : json) :
  (forall key, In key referenced_fields ->
     getitem data1 key = getitem data2 key) ->
  build_prompt rt data1 = build_prompt rt data2.
Proof.
  intros H. unfold build_prompt.
  rewrite (H "name"), (H "profile"), (H "monthlyIncome"), (H "careerStage"),
    (H "spendingCategories"), (H "recentTransactions"), (H "goals");
    try reflexivity; unfold referenced_fields; simpl; tauto.
Qed.

Lemma X12_prompt_reads_referenced_fields_only_witness :
  let rt := Sample.runtime (Sample.ok 200 Sample.profile_text) Sample.table
              (Sample.says Sample.advice_text) in
  build_prompt rt reordered_data = build_prompt rt Sample.user_data
  /\ build_prompt rt Sample.user_data = inr Sample.prompt.
Proof.
  intros rt. split; [|reflexivity].
  apply X12_prompt_reads_referenced_fields_only.
  intros key Hin. unfold referenced_fields in Hin. simpl in Hin.
  repeat (destruct Hin as [<-|Hin]; [reflexivity|]).
  contradiction.
Defined.

Lemma contains_self (s : string) : PyStr.contains s s = true.
Proof.
  pose proof (PyStrMore.contains_intro EmptyString s EmptyString) as H.
  simpl append in H. now rewrite PyStrMore.app_nil_r in H.
Qed.

Lemma joined_contains_each (sep g : string) (goals : list string) :
  In g goals -> PyStr.contains g (String.concat sep goals) = true.
Proof.
  induction goals as [|a goals IH]; intros Hin; [contradiction|].
  destruct goals as [|b goals].
  - destruct Hin as [<-|[]]. apply contains_self.
  - rewrite concat_cons by discriminate.
    destruct Hin as [<-|Hin].
    + apply contains_head.
    + apply contains_skip, contains_skip, IH, Hin.
Qed.

(** X13: when the goals of the user data are a list of strings, they are
    joined with a comma and a space, and every single goal appears verbatim
    in the prompt sent to the model. *)
Theorem X13_each_goal_is_in_the_prompt
    (rt : Runtime) (user_data : json) (goals : list string)
    (prompt goal : string) :
  getitem user_data "goals" = inr (JList (map JStr goals)) ->
  build_prompt rt user_data = inr prompt ->
  In goal goals ->
  str_join ", " (JList (map JStr goals)) = inr (String.concat ", " goals)
  /\ PyStr.contains (String.concat ", " goals) prompt = true
  /\ PyStr.contains goal prompt = true.
Proof.
  intros Hg Hp Hin.
  assert (J : str_join ", " (JList (map JStr goals))
              = inr (String.concat ", " goals)).
  { unfold str_join. now rewrite strs_from_strings. }
  split; [exact J|].
  unfold build_prompt in Hp. unfold rbind at 1 2 3 4 5 6 in Hp.
  destruct (getitem user_data "name") as [|name]; [discriminate Hp|].
  destruct (getitem user_data "profile") as [|profile]; [discriminate Hp|].
  destruct (getitem user_data "monthlyIncome") as [|income];
    [discriminate Hp|].
  destruct (getitem user_data "careerStage") as [|stage]; [discriminate Hp|].
  destruct (getitem user_data "spendingCategories") as [|spending];
    [discriminate Hp|].
  destruct (getitem user_data "recentTransactions") as [|transactions];
    [discriminate Hp|].
  rewrite Hg in Hp. unfold rbind at 1 in Hp. rewrite J in Hp.
  unfold rbind in Hp. injection Hp as <-.
  assert (C : PyStr.contains (String.concat ", " goals)
                (render_prompt (py_format rt name) (py_format rt profile)
                   (py_format rt income) (py_format rt stage)
                   (json_dumps rt spending) (json_dumps rt transactions)
                   (String.concat ", " goals)) = true)
    by apply render_prompt_contains.
  split; [exact C|].
  exact (PyStrMore.contains_trans _ _ _ (joined_contains_each ", " _ _ Hin) C).
Qed.

Lemma X13_each_goal_is_in_the_prompt_witness :
  let rt := Sample.runtime (Sample.ok 200 Sample.profile_text) Sample.table
              (Sample.says Sample.advice_text) in
  str_join ", " (JList [JStr "Learn Python"; JStr "Save more"])
    = inr "Learn Python, Save more"
  /\ PyStr.contains "Learn Python, Save more" Sample.prompt = true
  /\ PyStr.contains "Save more" Sample.prompt = true.
Proof.
  intros rt.
  apply (X13_each_goal_is_in_the_prompt rt Sample.user_data
           ["Learn Python"; "Save more"] Sample.prompt "Save more").
  - reflexivity.
  - reflexivity.
  - simpl. auto.
Defined.

(** X15: an envelope is returned only after both outbound calls were made:
    the GET and then the call to the model with the rendered prompt.  In
    particular the fallback is never served without the model having been
    asked. *)
Theorem X15_success_needs_both_calls
    (rt : Runtime) (request : AnalysisRequest) (result : json) :
  outcome (analyze_career_path rt request) = inr result ->
  exists prompt,
    calls (analyze_career_path rt request)
    = [Get (financial_data_url request); GenerateContent model_name prompt]
    /\ model_invoked (analyze_career_path rt request) = true.
Proof.
  intros H. rewrite analyze_career_path_body in *.
  unfold outcome in H. unfold model_invoked, calls. simpl in *.
  destruct (client_get rt (financial_data_url request)) as [e|resp] eqn:Hget.
  { rewrite (analyze_body_fetch_raises rt request _
               (fetch_user_data_transport rt request e Hget)) in H.
    discriminate H. }
  pose proof (fetch_user_data_response rt request resp Hget) as F.
  destruct (Z.eqb (status_code resp) 200) eqn:Hst.
  2:{ rewrite (analyze_body_fetch_raises rt request _ F) in H.
      discriminate H. }
  destruct (json_loads rt (content resp)) as [e|user_data] eqn:Hjs.
  { rewrite (analyze_body_fetch_raises rt request _ F) in H.
    discriminate H. }
  rewrite (analyze_body_fetched rt request _ F) in *.
  destruct (build_prompt rt user_data) as [e|prompt] eqn:Hp;
    [discriminate H|].
  exists prompt. split; reflexivity.
Qed.

Lemma X15_success_needs_both_calls_witness :
  let rt := Sample.runtime (Sample.ok 200 Sample.profile_text) Sample.table
              (Sample.says "I cannot answer that.") in
  outcome (analyze_career_path rt Sample.request)
    = inr (envelope Sample.request (JStr "Junior analyst")
             fallback_recommendation)
  /\ exists prompt,
       calls (analyze_career_path rt Sample.request)
       = [Get (financial_data_url Sample.request);
          GenerateContent model_name prompt]
       /\ model_invoked (analyze_career_path rt Sample.request) = true.
Proof.
  intros rt.
  assert (R : outcome (analyze_career_path rt Sample.request)
              = inr (envelope Sample.request (JStr "Junior analyst")
                       fallback_recommendation))
    by (vm_compute; reflexivity).
  split; [exact R|].
  exact (X15_success_needs_both_calls rt Sample.request _ R).
Defined.

(* ================================================================== *)
(** ** Start-up *)
(* ================================================================== *)

(** X14: the service starts exactly when [GEMINI_API_KEY] is set to a
    non-empty string, and that string is the key it configures; a key that
    is missing or empty stops the start-up with the same [ValueError]. *)
Theorem X14_startup_needs_a_non_empty_key
    (getenv : string -> option string) :
  (forall key,
     startup getenv = inr key
     <-> getenv "GEMINI_API_KEY" = Some key /\ key <> EmptyString)
  /\ (startup getenv = inl key_not_set
      <-> getenv "GEMINI_API_KEY" = None
          \/ getenv "GEMINI_API_KEY" = Some EmptyString).
Proof.
  unfold startup.
  destruct (getenv "GEMINI_API_KEY") as [[|c k]|]; split;
    try (intros key); split;
    try (intros H; discriminate H);
    try (intros [H1 H2]; discriminate H1);
    try (intros [H|H]; discriminate H);
    try (intros [H1 H2]; injection H1 as <-; congruence);
    try (intros H; injection H as <-; split; [reflexivity | discriminate]);
    auto.
Qed.
